(** * NgbTooltip: the tooltip directive of src/tooltip/tooltip.ts

    The directive is a class with mutable fields whose methods call into
    collaborators (a popup service, a positioning helper, the renderer, the
    zone, two utility functions).  It is embedded as a state-and-exception
    monad over a record holding the directive's fields together with the part
    of the outside world its calls act upon:

    - the attributes of DOM elements ([Renderer2.setAttribute] and
      [removeAttribute]) as a finite map;
    - the promise job queue ([Promise.resolve().then]);
    - the live subscribers of [NgZone.onStable];
    - the subscribers of the two observables the popup service hands back
      (the opening [transition$] and the result of [close]);
    - the list of every call made on a collaborator, most recent first.

    Callbacks handed to collaborators are closures over [this]; they are
    represented by tags ([Callback]) and given their bodies by
    [run_callback].  When a collaborator decides to run one of them is not
    fixed by the directive: it is an [Event] of the step function [step].

    Selectors handed to [document.querySelector] are taken to be well formed
    (the lookup answers an element or [null], it does not raise). *)

From stdpp Require Import base option strings gmap list pretty.

Module NgbTooltip.

(** ** Values the directive handles *)

(** DOM elements: nodes of the host document, and the root node of a popup
    window built by the popup service. *)
Inductive Element :=
| DocNode (n : nat)
| WindowNode (w : nat).

#[global] Instance Element_eq_dec : EqDecision Element.
Proof. solve_decision. Defined.

#[global] Instance Element_countable : Countable Element.
Proof.
  apply (inj_countable'
    (λ e, match e with DocNode n => inl n | WindowNode w => inr w end)
    (λ s, match s with inl n => DocNode n | inr w => WindowNode w end)).
  by intros [].
Defined.

(** [ComponentRef<NgbTooltipWindow>]; [location.nativeElement] is its root. *)
Record ComponentRef := { component_id : nat }.

Definition nativeElement (w : ComponentRef) : Element :=
  WindowNode (component_id w).

(** [string | TemplateRef<any> | null | undefined] *)
Inductive TooltipContent :=
| ContentString (s : string)
| ContentTemplate (t : nat)
| ContentNull
| ContentUndefined.

(** JavaScript truthiness of a tooltip content: [null], [undefined] and the
    empty string are falsy, every object is truthy. *)
Definition truthy (c : TooltipContent) : bool :=
  match c with
  | ContentString s => negb (String.eqb s "")
  | ContentTemplate _ => true
  | ContentNull | ContentUndefined => false
  end.

(** [boolean | 'inside' | 'outside'] *)
Inductive AutoClose :=
| AutoCloseBool (b : bool)
| AutoCloseInside
| AutoCloseOutside.

(** [positionTarget?: string | HTMLElement] *)
Inductive PositionTarget :=
| TargetUndefined
| TargetSelector (selector : string)
| TargetElement (e : Element).

(** What a template may bind to an input declared [number]. *)
Inductive JsValue :=
| JsNumber (n : Z)
| JsString (s : string)
| JsUndefined.

(** The result of the unary [+] applied to a value. *)
Inductive Coerced := ToNumber (v : JsValue).

(** The value given to [ComponentRef.setInput]. *)
Inductive InputValue :=
| InputBool (b : bool)
| InputString (s : string).

(** Closures over [this] that the directive hands to its collaborators. *)
Inductive Callback :=
| CbIsOpen                (* this.isOpen.bind(this) *)
| CbOpen                  (* this.open.bind(this) *)
| CbClose                 (* this.close.bind(this) *)
| CbAutoClose             (* () => this.close() *)
| CbShown                 (* () => this.shown.emit() *)
| CbClosed                (* the subscriber of _popupService.close(animation) *)
| CbSchedulePositioning   (* the body given to Promise.resolve().then *)
| CbZoneStable            (* () => this._positioning.update() *)
| CbUpdatePopperOptions.  (* (options) => this.popperOptions(options) *)

(** The argument of [_positioning.createPopper]. *)
Record PopperArgs := {
  hostElement : Element;
  targetElement : Element;
  popper_placement : string;
  appendToBody : bool;
  baseClass : string;
  updatePopperOptions : Callback;
}.

(** Calls on collaborators. *)
Inductive Call :=
| PopupService_open (content : TooltipContent) (context : option nat) (animation : bool)
| PopupService_close (animation : bool)
| WindowRef_setInput (w : ComponentRef) (name : string) (v : InputValue)
| WindowRef_detectChanges (w : ComponentRef)
| WindowRef_markForCheck (w : ComponentRef)
| WindowRef_set_tooltipClass (w : ComponentRef) (v : string)
| Renderer_setAttribute (el : Element) (name value : string)
| Renderer_removeAttribute (el : Element) (name : string)
| Node_appendChild (parent child : Element)
| Positioning_createPopper (args : PopperArgs)
| Positioning_update
| Positioning_destroy
| OnStable_subscribe (s : nat) (cb : Callback)
| Subscription_unsubscribe (s : nat)
| NgbAutoClose (mode : AutoClose) (close : Callback) (elements : list Element)
    (* ngbAutoClose(zone, document, mode, close, this.hidden, elements) *)
| Transition_subscribe (t : nat) (cb : Callback)
| Shown_emit
| Hidden_emit
| ChangeDetector_markForCheck
| ListenToTriggers (el : Element) (triggers : string)
    (isOpenedFn openFn closeFn : Callback) (openDelay closeDelay : Coerced)
    (* listenToTriggers(renderer, el, triggers, isOpenedFn, openFn, closeFn,
       openDelay, closeDelay) *)
| UnregisterListeners (u : nat)
| PopperOptions_call (fn : nat).

Inductive JsError :=
| TypeError (what : string).

(** ** The directive and its surroundings *)

(** [NgbTooltipConfig], as far as the constructor reads it. *)
Record NgbTooltipConfig := {
  config_animation : bool;
  config_autoClose : AutoClose;
  config_placement : string;
  config_popperOptions : nat;
  config_triggers : string;
  config_container : string;
  config_disableTooltip : bool;
  config_tooltipClass : string;
  config_openDelay : JsValue;
  config_closeDelay : JsValue;
}.

(** The [@Input()] fields. *)
Record Inputs := {
  animation : bool;
  autoClose : AutoClose;
  placement : string;
  popperOptions : nat;
  triggers : string;
  positionTarget : PositionTarget;
  container : string;
  disableTooltip : bool;
  tooltipClass : string;
  openDelay : JsValue;
  closeDelay : JsValue;
}.

(** What the directive's calls act upon. *)
Record World := {
  attributes : gmap (Element * string) string;
  document : gmap string Element;      (* what querySelector answers *)
  calls : list Call;                   (* most recent first *)
  microtasks : list Callback;          (* next job first *)
  onStable : list (nat * Callback);    (* live subscribers, oldest first *)
  closing : nat;                       (* subscribers awaiting a close observable *)
  opening : nat;                       (* subscribers awaiting transition$ *)
  supply : nat;                        (* next fresh handle *)
}.

Record State := {
  inputs : Inputs;
  _ngbTooltip : TooltipContent;
  _ngbTooltipWindowId : string;
  _windowRef : option ComponentRef;
  _unregisterListenersFn : option nat;
  _zoneSubscription : option nat;
  _elementRef : Element;
  world : World;
}.

(** ** Field updates *)

Definition with_world (f : World → World) (st : State) : State :=
  {| inputs := inputs st; _ngbTooltip := _ngbTooltip st;
     _ngbTooltipWindowId := _ngbTooltipWindowId st; _windowRef := _windowRef st;
     _unregisterListenersFn := _unregisterListenersFn st;
     _zoneSubscription := _zoneSubscription st; _elementRef := _elementRef st;
     world := f (world st) |}.

Definition with_inputs (i : Inputs) (st : State) : State :=
  {| inputs := i; _ngbTooltip := _ngbTooltip st;
     _ngbTooltipWindowId := _ngbTooltipWindowId st; _windowRef := _windowRef st;
     _unregisterListenersFn := _unregisterListenersFn st;
     _zoneSubscription := _zoneSubscription st; _elementRef := _elementRef st;
     world := world st |}.

Definition with_ngbTooltip (v : TooltipContent) (st : State) : State :=
  {| inputs := inputs st; _ngbTooltip := v;
     _ngbTooltipWindowId := _ngbTooltipWindowId st; _windowRef := _windowRef st;
     _unregisterListenersFn := _unregisterListenersFn st;
     _zoneSubscription := _zoneSubscription st; _elementRef := _elementRef st;
     world := world st |}.

Definition with_windowRef (w : option ComponentRef) (st : State) : State :=
  {| inputs := inputs st; _ngbTooltip := _ngbTooltip st;
     _ngbTooltipWindowId := _ngbTooltipWindowId st; _windowRef := w;
     _unregisterListenersFn := _unregisterListenersFn st;
     _zoneSubscription := _zoneSubscription st; _elementRef := _elementRef st;
     world := world st |}.

Definition with_unregisterListenersFn (u : option nat) (st : State) : State :=
  {| inputs := inputs st; _ngbTooltip := _ngbTooltip st;
     _ngbTooltipWindowId := _ngbTooltipWindowId st; _windowRef := _windowRef st;
     _unregisterListenersFn := u;
     _zoneSubscription := _zoneSubscription st; _elementRef := _elementRef st;
     world := world st |}.

Definition with_zoneSubscription (s : option nat) (st : State) : State :=
  {| inputs := inputs st; _ngbTooltip := _ngbTooltip st;
     _ngbTooltipWindowId := _ngbTooltipWindowId st; _windowRef := _windowRef st;
     _unregisterListenersFn := _unregisterListenersFn st;
     _zoneSubscription := s; _elementRef := _elementRef st;
     world := world st |}.

Definition with_attributes (f : gmap (Element * string) string → gmap (Element * string) string)
    (w : World) : World :=
  {| attributes := f (attributes w); document := document w; calls := calls w;
     microtasks := microtasks w; onStable := onStable w; closing := closing w;
     opening := opening w; supply := supply w |}.

Definition with_calls (f : list Call → list Call) (w : World) : World :=
  {| attributes := attributes w; document := document w; calls := f (calls w);
     microtasks := microtasks w; onStable := onStable w; closing := closing w;
     opening := opening w; supply := supply w |}.

Definition with_microtasks (f : list Callback → list Callback) (w : World) : World :=
  {| attributes := attributes w; document := document w; calls := calls w;
     microtasks := f (microtasks w); onStable := onStable w; closing := closing w;
     opening := opening w; supply := supply w |}.

Definition with_onStable (f : list (nat * Callback) → list (nat * Callback)) (w : World) : World :=
  {| attributes := attributes w; document := document w; calls := calls w;
     microtasks := microtasks w; onStable := f (onStable w); closing := closing w;
     opening := opening w; supply := supply w |}.

Definition with_closing (f : nat → nat) (w : World) : World :=
  {| attributes := attributes w; document := document w; calls := calls w;
     microtasks := microtasks w; onStable := onStable w; closing := f (closing w);
     opening := opening w; supply := supply w |}.

Definition with_opening (f : nat → nat) (w : World) : World :=
  {| attributes := attributes w; document := document w; calls := calls w;
     microtasks := microtasks w; onStable := onStable w; closing := closing w;
     opening := f (opening w); supply := supply w |}.

Definition with_supply (f : nat → nat) (w : World) : World :=
  {| attributes := attributes w; document := document w; calls := calls w;
     microtasks := microtasks w; onStable := onStable w; closing := closing w;
     opening := opening w; supply := f (supply w) |}.

(** ** State and exceptions *)

Inductive Outcome (A : Type) :=
| Normal (a : A)
| Throw (e : JsError).
Arguments Normal {A} a.
Arguments Throw {A} e.

Definition M (A : Type) : Type := State → Outcome A * State.

Definition ret {A} (a : A) : M A := λ st, (Normal a, st).

Definition bind {A B} (m : M A) (k : A → M B) : M B :=
  λ st, match m st with
        | (Normal a, st') => k a st'
        | (Throw e, st') => (Throw e, st')
        end.

Definition throw {A} (e : JsError) : M A := λ st, (Throw e, st).
Definition get : M State := λ st, (Normal st, st).
Definition gets {A} (f : State → A) : M A := λ st, (Normal (f st), st).
Definition modify (f : State → State) : M unit := λ st, (Normal tt, f st).

Declare Scope js_scope.
Delimit Scope js_scope with js.
Notation "x <- m ;; k" := (bind m (λ x, k))
  (at level 100, m at next level, right associativity) : js_scope.
Notation "m ;; k" := (bind m (λ _, k))
  (at level 100, right associativity) : js_scope.
Open Scope js_scope.

(** The state a computation leaves behind, whether it returns or throws. *)
Definition exec {A} (m : M A) (st : State) : State := snd (m st).

(** ** Collaborators *)

Definition call (c : Call) : M unit :=
  modify (with_world (with_calls (cons c))).

Definition fresh : M nat :=
  n <- gets (λ st, supply (world st)) ;;
  modify (with_world (with_supply S)) ;;
  ret n.

(** [Renderer2.setAttribute(el, name, value)] *)
Definition renderer_setAttribute (el : Element) (name value : string) : M unit :=
  call (Renderer_setAttribute el name value) ;;
  modify (with_world (with_attributes (insert (el, name) value))).

(** [Renderer2.removeAttribute(el, name)] *)
Definition renderer_removeAttribute (el : Element) (name : string) : M unit :=
  call (Renderer_removeAttribute el name) ;;
  modify (with_world (with_attributes (delete (el, name)))).

(** [this._document.querySelector(selector)] *)
Definition document_querySelector (selector : string) : M (option Element) :=
  gets (λ st, document (world st) !! selector).

(** [parent.appendChild(child)], where [parent] may be [null]. *)
Definition appendChild (parent : option Element) (child : Element) : M unit :=
  match parent with
  | Some p => call (Node_appendChild p child)
  | None => throw (TypeError "Cannot read properties of null (reading 'appendChild')")
  end.

(** [this._popupService.open(content, context, animation)] answers the window
    and the observable of its opening transition. *)
Definition popupService_open (content : TooltipContent) (context : option nat)
    (animation : bool) : M (ComponentRef * nat) :=
  call (PopupService_open content context animation) ;;
  n <- fresh ;;
  ret ({| component_id := n |}, n).

(** [transition$.subscribe(cb)] *)
Definition transition_subscribe (t : nat) (cb : Callback) : M unit :=
  call (Transition_subscribe t cb) ;;
  modify (with_world (with_opening S)).

(** [this._popupService.close(animation).subscribe(cb)] *)
Definition popupService_close_subscribe (animation : bool) : M unit :=
  call (PopupService_close animation) ;;
  modify (with_world (with_closing S)).

(** [Promise.resolve().then(cb)] *)
Definition promise_then (cb : Callback) : M unit :=
  modify (with_world (with_microtasks (λ q, q ++ [cb]))).

(** [this._ngZone.onStable.subscribe(cb)] answers the subscription. *)
Definition onStable_subscribe (cb : Callback) : M nat :=
  s <- fresh ;;
  call (OnStable_subscribe s cb) ;;
  modify (with_world (with_onStable (λ l, l ++ [(s, cb)]))) ;;
  ret s.

(** [subscription.unsubscribe()] *)
Definition unsubscribe (s : nat) : M unit :=
  call (Subscription_unsubscribe s) ;;
  modify (with_world (with_onStable (filter (λ p, p.1 ≠ s)))).

(** [listenToTriggers(...)] answers the function that removes the listeners. *)
Definition listenToTriggers (el : Element) (triggers : string)
    (isOpenedFn openFn closeFn : Callback) (openDelay closeDelay : Coerced) : M nat :=
  call (ListenToTriggers el triggers isOpenedFn openFn closeFn openDelay closeDelay) ;;
  fresh.

(** [fn?.()] on a field that holds a function or [undefined]. *)
Definition optional_call (fn : option nat) : M unit :=
  match fn with
  | Some u => call (UnregisterListeners u)
  | None => ret tt
  end.

(** [fn()], for comparison: calling [undefined] raises. *)
Definition plain_call (fn : option nat) : M unit :=
  match fn with
  | Some u => call (UnregisterListeners u)
  | None => throw (TypeError "undefined is not a function")
  end.

(** ** The methods of [NgbTooltip] *)

(** The constructor copies the configuration into the inputs and numbers the
    window id from the module counter [nextId]. *)
Definition constructor (config : NgbTooltipConfig) (_elementRef : Element)
    (nextId : nat) (w : World) : State :=
  {| inputs :=
       {| animation := config_animation config;
          autoClose := config_autoClose config;
          placement := config_placement config;
          popperOptions := config_popperOptions config;
          triggers := config_triggers config;
          positionTarget := TargetUndefined;
          container := config_container config;
          disableTooltip := config_disableTooltip config;
          tooltipClass := config_tooltipClass config;
          openDelay := config_openDelay config;
          closeDelay := config_closeDelay config |};
     _ngbTooltip := ContentUndefined;
     _ngbTooltipWindowId := "ngb-tooltip-" +:+ pretty nextId;
     _windowRef := None;
     _unregisterListenersFn := None;
     _zoneSubscription := None;
     _elementRef := _elementRef;
     world := w |}.

(** [(isString(this.positionTarget) ? this._document.querySelector(this.positionTarget)
      : this.positionTarget) || this._elementRef.nativeElement] *)
Definition _getPositionTargetElement : M Element :=
  this <- get ;;
  found <- match positionTarget (inputs this) with
           | TargetSelector selector => document_querySelector selector
           | TargetElement e => ret (Some e)
           | TargetUndefined => ret None
           end ;;
  match found with
  | Some e => ret e
  | None => ret (_elementRef this)
  end.

Definition isOpen : M bool :=
  this <- get ;;
  ret (bool_decide (_windowRef this ≠ None)).

Definition open (context : option nat) : M unit :=
  this <- get ;;
  if negb (bool_decide (is_Some (_windowRef this)))
     && truthy (_ngbTooltip this)
     && negb (disableTooltip (inputs this))
  then
    wt <- popupService_open (_ngbTooltip this) context (animation (inputs this)) ;;
    let windowRef := wt.1 in
    let transition := wt.2 in
    modify (with_windowRef (Some windowRef)) ;;
    call (WindowRef_setInput windowRef "animation" (InputBool (animation (inputs this)))) ;;
    call (WindowRef_setInput windowRef "tooltipClass" (InputString (tooltipClass (inputs this)))) ;;
    call (WindowRef_setInput windowRef "id" (InputString (_ngbTooltipWindowId this))) ;;
    target <- _getPositionTargetElement ;;
    renderer_setAttribute target "aria-describedby" (_ngbTooltipWindowId this) ;;
    (if String.eqb (container (inputs this)) "body" then
       parent <- document_querySelector (container (inputs this)) ;;
       appendChild parent (nativeElement windowRef)
     else ret tt) ;;
    call (WindowRef_detectChanges windowRef) ;;
    call (WindowRef_markForCheck windowRef) ;;
    (* this._ngZone.runOutsideAngular(() => { ... }) runs its argument at once *)
    host <- _getPositionTargetElement ;;
    call (Positioning_createPopper
            {| hostElement := host;
               targetElement := nativeElement windowRef;
               popper_placement := placement (inputs this);
               appendToBody := String.eqb (container (inputs this)) "body";
               baseClass := "bs-tooltip";
               updatePopperOptions := CbUpdatePopperOptions |}) ;;
    promise_then CbSchedulePositioning ;;
    call (NgbAutoClose (autoClose (inputs this)) CbAutoClose [nativeElement windowRef]) ;;
    transition_subscribe transition CbShown
  else ret tt.

(** [close(animation = this.animation)]: [None] is the omitted argument. *)
Definition close (animation_arg : option bool) : M unit :=
  this <- get ;;
  let animation := default (animation (inputs this)) animation_arg in
  match _windowRef this with
  | Some _ =>
      target <- _getPositionTargetElement ;;
      renderer_removeAttribute target "aria-describedby" ;;
      popupService_close_subscribe animation
  | None => ret tt
  end.

Definition toggle : M unit :=
  this <- get ;;
  match _windowRef this with
  | Some _ => close None
  | None => open None
  end.

(** [set ngbTooltip(value)] *)
Definition ngbTooltip_set (value : TooltipContent) : M unit :=
  modify (with_ngbTooltip value) ;;
  this <- get ;;
  if negb (truthy value) && bool_decide (is_Some (_windowRef this))
  then close None
  else ret tt.

(** [get ngbTooltip()] *)
Definition ngbTooltip_get : M TooltipContent := gets _ngbTooltip.

Definition ngOnInit : M unit :=
  this <- get ;;
  unregister <- listenToTriggers (_elementRef this) (triggers (inputs this))
                  CbIsOpen CbOpen CbClose
                  (ToNumber (openDelay (inputs this)))
                  (ToNumber (closeDelay (inputs this))) ;;
  modify (with_unregisterListenersFn (Some unregister)).

(** [ngOnChanges({ tooltipClass })]: the argument is the [currentValue] of the
    change of [tooltipClass], when the changes contain one. *)
Definition ngOnChanges (tooltipClass_change : option string) : M unit :=
  match tooltipClass_change with
  | Some currentValue =>
      opened <- isOpen ;;
      if opened then
        this <- get ;;
        match _windowRef this with
        | Some w => call (WindowRef_set_tooltipClass w currentValue)
        | None => throw (TypeError "Cannot read properties of null (reading 'instance')")
        end
      else ret tt
  | None => ret tt
  end.

Definition ngOnDestroy : M unit :=
  close (Some false) ;;
  this <- get ;;
  optional_call (_unregisterListenersFn this).

(** ** The callbacks *)

(** The subscriber of [this._popupService.close(animation)]. *)
Definition on_closed : M unit :=
  modify (with_windowRef None) ;;
  call Positioning_destroy ;;
  this <- get ;;
  match _zoneSubscription this with
  | Some s => unsubscribe s
  | None => ret tt
  end ;;
  call Hidden_emit ;;
  call ChangeDetector_markForCheck.

(** The job queued by [open]. *)
Definition schedule_positioning : M unit :=
  call Positioning_update ;;
  s <- onStable_subscribe CbZoneStable ;;
  modify (with_zoneSubscription (Some s)).

Definition run_callback (cb : Callback) : M unit :=
  match cb with
  | CbIsOpen => isOpen ;; ret tt
  | CbOpen => open None
  | CbClose => close None
  | CbAutoClose => close None
  | CbShown => call Shown_emit
  | CbClosed => on_closed
  | CbSchedulePositioning => schedule_positioning
  | CbZoneStable => call Positioning_update
  | CbUpdatePopperOptions =>
      this <- get ;;
      call (PopperOptions_call (popperOptions (inputs this)))
  end.

(** Runs the callbacks one after the other; a callback that throws does not
    keep the later ones from running. *)
Fixpoint run_all (cbs : list Callback) (st : State) : State :=
  match cbs with
  | [] => st
  | cb :: rest => run_all rest (exec (run_callback cb) st)
  end.

(** ** What can happen to a directive *)

Inductive Event :=
(* the application or the framework calls a method *)
| Ev_open (context : option nat)
| Ev_close (animation : option bool)
| Ev_toggle
| Ev_isOpen
| Ev_set_ngbTooltip (value : TooltipContent)
| Ev_set_inputs (i : Inputs)
| Ev_ngOnInit
| Ev_ngOnChanges (tooltipClass_change : option string)
| Ev_ngOnDestroy
(* a utility (triggers, auto-close, positioning) runs a callback it was given *)
| Ev_callback (cb : Callback)
(* the job at the head of the promise queue runs *)
| Ev_microtask
(* NgZone.onStable emits *)
| Ev_zoneStable
(* the observable of a close emits to one subscriber; an observable that
   emits while it is being subscribed to is this event right after the call *)
| Ev_closed
(* transition$ emits to one subscriber *)
| Ev_transitionEnd.

(** The callbacks that [listenToTriggers], [ngbAutoClose] and
    [createPopper] receive. *)
Definition given_to_utility (cb : Callback) : bool :=
  match cb with
  | CbIsOpen | CbOpen | CbClose | CbAutoClose | CbUpdatePopperOptions => true
  | _ => false
  end.

Definition step (ev : Event) (st : State) : State :=
  match ev with
  | Ev_open context => exec (open context) st
  | Ev_close animation => exec (close animation) st
  | Ev_toggle => exec toggle st
  | Ev_isOpen => exec isOpen st
  | Ev_set_ngbTooltip value => exec (ngbTooltip_set value) st
  | Ev_set_inputs i => with_inputs i st
  | Ev_ngOnInit => exec ngOnInit st
  | Ev_ngOnChanges c => exec (ngOnChanges c) st
  | Ev_ngOnDestroy => exec ngOnDestroy st
  | Ev_callback cb =>
      if given_to_utility cb then exec (run_callback cb) st else st
  | Ev_microtask =>
      match microtasks (world st) with
      | cb :: rest =>
          exec (run_callback cb) (with_world (with_microtasks (λ _, rest)) st)
      | [] => st
      end
  | Ev_zoneStable => run_all (onStable (world st)).*2 st
  | Ev_closed =>
      match closing (world st) with
      | S n => exec (run_callback CbClosed) (with_world (with_closing (λ _, n)) st)
      | O => st
      end
  | Ev_transitionEnd =>
      match opening (world st) with
      | S n => exec (run_callback CbShown) (with_world (with_opening (λ _, n)) st)
      | O => st
      end
  end.

Definition run (evs : list Event) (st : State) : State :=
  foldl (λ s ev, step ev s) st evs.

(** A world in which nothing has been called or scheduled yet. *)
Definition new_world (doc : gmap string Element)
    (attrs : gmap (Element * string) string) : World :=
  {| attributes := attrs; document := doc; calls := []; microtasks := [];
     onStable := []; closing := 0; opening := 0; supply := 0 |}.

(** The calls made so far, oldest first. *)
Definition trace (st : State) : list Call := reverse (calls (world st)).

End NgbTooltip.

Import NgbTooltip.

(** * Properties *)

(** ** Vocabulary *)

(** The element [_getPositionTargetElement] answers, as a function of the
    state. *)
Definition position_target (st : State) : Element :=
  match positionTarget (inputs st) with
  | TargetSelector selector => default (_elementRef st) (document (world st) !! selector)
  | TargetElement e => e
  | TargetUndefined => _elementRef st
  end.

(** The window that the next [_popupService.open] answers. *)
Definition next_window (st : State) : ComponentRef :=
  {| component_id := supply (world st) |}.

(** The state of an opening directive once the window exists, its inputs are
    set and the host is labelled. *)
Definition labelled (context : option nat) (st : State) : State :=
  let w := next_window st in
  let target := position_target st in
  let id := _ngbTooltipWindowId st in
  with_world (with_attributes (insert (target, "aria-describedby") id))
    (with_world
       (with_calls (λ cs,
          Renderer_setAttribute target "aria-describedby" id
          :: WindowRef_setInput w "id" (InputString id)
          :: WindowRef_setInput w "tooltipClass" (InputString (tooltipClass (inputs st)))
          :: WindowRef_setInput w "animation" (InputBool (animation (inputs st)))
          :: PopupService_open (_ngbTooltip st) context (animation (inputs st))
          :: cs))
       (with_windowRef (Some w) (with_world (with_supply S) st))).

(** The rest of [open]: change detection, positioning, auto-close and the
    subscription to the opening transition.  [appended] holds the call of
    [appendChild] when the container is the body. *)
Definition positioned (appended : list Call) (st0 st : State) : State :=
  let w := next_window st0 in
  with_world (with_opening S)
    (with_world
       (with_calls (λ cs,
          Transition_subscribe (supply (world st0)) CbShown
          :: NgbAutoClose (autoClose (inputs st0)) CbAutoClose [nativeElement w]
          :: Positioning_createPopper
               {| hostElement := position_target st0;
                  targetElement := nativeElement w;
                  popper_placement := placement (inputs st0);
                  appendToBody := String.eqb (container (inputs st0)) "body";
                  baseClass := "bs-tooltip";
                  updatePopperOptions := CbUpdatePopperOptions |}
          :: WindowRef_markForCheck w
          :: WindowRef_detectChanges w
          :: appended ++ cs))
       (with_world (with_microtasks (λ q, q ++ [CbSchedulePositioning])) st)).

(** The guard of [open] holds: no window yet, a truthy content, not disabled. *)
Definition opens (st : State) : Prop :=
  _windowRef st = None ∧ truthy (_ngbTooltip st) = true
  ∧ disableTooltip (inputs st) = false.

(** The number of windows asked from the popup service since the handler of
    a completed close last ran ([calls] lists the most recent call first;
    [_positioning.destroy()] is the first call of that handler, made right
    after it clears [_windowRef]). *)
Fixpoint windows_since_teardown (cs : list Call) : nat :=
  match cs with
  | [] => 0
  | PopupService_open _ _ _ :: rest => S (windows_since_teardown rest)
  | Positioning_destroy :: _ => 0
  | _ :: rest => windows_since_teardown rest
  end.

(** The directive holds a window exactly when one was asked for since the
    last teardown, and then only one was. *)
Definition single_window (st : State) : Prop :=
  windows_since_teardown (calls (world st))
  = match _windowRef st with Some _ => 1 | None => 0 end.

(** Calls that neither create nor tear down. *)
Definition neutral (c : Call) : bool :=
  match c with
  | PopupService_open _ _ _ | Positioning_destroy => false
  | _ => true
  end.

(** A computation is quiet for a field [proj] and a class [ok] of calls when
    it keeps the field and makes calls of the class only, whether it returns
    or throws. *)
Definition quiet {X A : Type} (proj : State → X) (ok : Call → bool) (m : M A) : Prop :=
  ∀ st, proj (exec m st) = proj st
        ∧ ∃ new, calls (world (exec m st)) = new ++ calls (world st)
                 ∧ forallb ok new = true.

(** Calls that leave the trigger listeners in place. *)
Definition keeps_listeners (c : Call) : bool :=
  match c with
  | UnregisterListeners _ => false
  | _ => true
  end.

(** No listeners were registered, and none was asked to be removed. *)
Definition never_registered (st : State) : Prop :=
  _unregisterListenersFn st = None
  ∧ forallb keeps_listeners (calls (world st)) = true.

(** The calls that create and label a window, most recent first. *)
Definition creating_calls (context : option nat) (st : State) : list Call :=
  [ Renderer_setAttribute (position_target st) "aria-describedby" (_ngbTooltipWindowId st);
    WindowRef_setInput (next_window st) "id" (InputString (_ngbTooltipWindowId st));
    WindowRef_setInput (next_window st) "tooltipClass" (InputString (tooltipClass (inputs st)));
    WindowRef_setInput (next_window st) "animation" (InputBool (animation (inputs st)));
    PopupService_open (_ngbTooltip st) context (animation (inputs st)) ].

(** A computation frames a relation between states when every run of it, to
    a return or to a throw, relates the state before to the state after. *)
Definition frames (R : relation State) {A : Type} (m : M A) : Prop :=
  ∀ st, R st (exec m st).

(** The relation of a preserved invariant. *)
Definition preserves (I : State → Prop) : relation State :=
  λ st st', I st → I st'.

(** What a directive is: its window id and its host. *)
Definition same_identity : relation State :=
  λ st st', _ngbTooltipWindowId st' = _ngbTooltipWindowId st
            ∧ _elementRef st' = _elementRef st.

(** The function stored by [ngOnInit] is the same. *)
Definition same_unregister : relation State :=
  λ st st', _unregisterListenersFn st' = _unregisterListenersFn st.

(** The subscribers of [onStable] are the same. *)
Definition same_subscribers : relation State :=
  λ st st', onStable (world st') = onStable (world st).

(** Every attribute except [aria-describedby] is the same on every element. *)
Definition same_other_attributes : relation State :=
  λ st st', ∀ el name, name ≠ "aria-describedby" →
    attributes (world st') !! (el, name) = attributes (world st) !! (el, name).

(** Events other than [ngOnInit]. *)
Definition not_ngOnInit (ev : Event) : Prop := ev ≠ Ev_ngOnInit.

(** Events that bind no truthy content. *)
Definition binds_no_content (ev : Event) : Prop :=
  match ev with
  | Ev_set_ngbTooltip value => truthy value = false
  | _ => True
  end.

Definition is_open_request (c : Call) : bool :=
  match c with PopupService_open _ _ _ => true | _ => false end.

(** Without a truthy content: no window is held and none was ever asked for. *)
Definition without_content (st : State) : Prop :=
  truthy (_ngbTooltip st) = false
  ∧ _windowRef st = None
  ∧ forallb (λ c, negb (is_open_request c)) (calls (world st)) = true.

Definition is_close_request (c : Call) : bool :=
  match c with PopupService_close _ => true | _ => false end.

Definition is_transition_subscribe (c : Call) : bool :=
  match c with Transition_subscribe _ _ => true | _ => false end.

Definition is_hidden_emit (c : Call) : bool :=
  match c with Hidden_emit => true | _ => false end.

Definition is_shown_emit (c : Call) : bool :=
  match c with Shown_emit => true | _ => false end.

(** The number of calls of a kind. *)
Fixpoint count_calls (p : Call → bool) (cs : list Call) : nat :=
  match cs with
  | [] => 0
  | c :: rest => (if p c then 1 else 0) + count_calls p rest
  end.

(** The calls that the accounts of [shown] and [hidden] count. *)
Definition counted (c : Call) : bool :=
  is_open_request c || is_close_request c || is_transition_subscribe c
  || is_hidden_emit c || is_shown_emit c.

(** Nothing that the accounts depend on has changed: the pending
    subscribers, the queued jobs, the subscribers of [onStable], and the
    counted calls. *)
Definition same_accounts : relation State :=
  λ st st',
    closing (world st') = closing (world st)
    ∧ opening (world st') = opening (world st)
    ∧ microtasks (world st') = microtasks (world st)
    ∧ onStable (world st') = onStable (world st)
    ∧ ∃ new, calls (world st') = new ++ calls (world st)
             ∧ forallb (λ c, negb (counted c)) new = true.

(** The accounts of the two outputs: every [hidden] answers a close asked
    from the popup service, every [shown] a subscription to an opening
    transition, of which there is at most one per window asked for; the
    promise queue holds positioning jobs only and [onStable] has positioning
    updates as its only subscribers. *)
Definition accounts (st : State) : Prop :=
  count_calls is_hidden_emit (calls (world st)) + closing (world st)
    = count_calls is_close_request (calls (world st))
  ∧ count_calls is_shown_emit (calls (world st)) + opening (world st)
    = count_calls is_transition_subscribe (calls (world st))
  ∧ count_calls is_transition_subscribe (calls (world st))
    ≤ count_calls is_open_request (calls (world st))
  ∧ Forall (λ cb, cb = CbSchedulePositioning) (microtasks (world st))
  ∧ Forall (λ p, p.2 = CbZoneStable) (onStable (world st)).

(** The content and the inputs are the same. *)
Definition same_bindings : relation State :=
  λ st st', _ngbTooltip st' = _ngbTooltip st ∧ inputs st' = inputs st.

(** Events other than a binding of the content or of the inputs. *)
Definition binds_nothing (ev : Event) : Prop :=
  match ev with
  | Ev_set_ngbTooltip _ | Ev_set_inputs _ => False
  | _ => True
  end.

(** ** A directive to run *)

Definition sample_config : NgbTooltipConfig :=
  {| config_animation := true; config_autoClose := AutoCloseBool true;
     config_placement := "auto"; config_popperOptions := 0;
     config_triggers := "hover focus"; config_container := "";
     config_disableTooltip := false; config_tooltipClass := "";
     config_openDelay := JsNumber 0; config_closeDelay := JsString "300" |}.

(** The directive as constructed, on the host [DocNode 0]. *)
Definition sample_new : State :=
  constructor sample_config (DocNode 0) 0 (new_world ∅ ∅).

(** With a content bound to it. *)
Definition sample_ready : State :=
  run [Ev_set_ngbTooltip (ContentString "tip")] sample_new.

(** Opened. *)
Definition sample_open : State :=
  run [Ev_set_ngbTooltip (ContentString "tip"); Ev_open None] sample_new.

(** With a position target that the document does not hold. *)
Definition sample_unmatched : State :=
  with_inputs
    {| animation := false; autoClose := AutoCloseInside;
       placement := "top"; popperOptions := 0; triggers := "click";
       positionTarget := TargetSelector "#missing";
       container := ""; disableTooltip := false; tooltipClass := "";
       openDelay := JsUndefined; closeDelay := JsUndefined |}
    sample_ready.

(** With the body as container, in a document that has one, and in a
    document that has none. *)
Definition sample_in_body (doc : gmap string Element) : State :=
  run [Ev_set_ngbTooltip (ContentString "tip")]
    (constructor
       {| config_animation := true; config_autoClose := AutoCloseBool true;
          config_placement := "auto"; config_popperOptions := 0;
          config_triggers := "hover focus"; config_container := "body";
          config_disableTooltip := false; config_tooltipClass := "";
          config_openDelay := JsNumber 0; config_closeDelay := JsNumber 0 |}
       (DocNode 0) 3 (new_world doc ∅)).

(** ** Reading the state *)

Lemma getPositionTargetElement_reads st :
  _getPositionTargetElement st = (Normal (position_target st), st).
Proof.
  unfold _getPositionTargetElement, position_target, bind, get, ret.
  destruct (positionTarget (inputs st)) as [|selector|e]; simpl; try reflexivity.
  unfold document_querySelector, gets.
  destruct (document (world st) !! selector); reflexivity.
Qed.

(** ** Opening and closing, step by step *)

Ltac unfold_monad :=
  unfold bind, get, gets, modify, ret, throw, call, fresh, exec in *.

Lemma close_without_window st a :
  _windowRef st = None → close a st = (Normal tt, st).
Proof.
  intros Hw. unfold close, bind, get. simpl. rewrite Hw. reflexivity.
Qed.

Lemma close_with_window st a w :
  _windowRef st = Some w →
  close a st =
    (Normal tt,
     with_world (with_closing S)
       (with_world (with_calls (cons (PopupService_close (default (animation (inputs st)) a))))
          (with_world (with_attributes (delete (position_target st, "aria-describedby")))
             (with_world (with_calls (cons (Renderer_removeAttribute (position_target st) "aria-describedby")))
                st)))).
Proof.
  intros Hw. unfold close. unfold bind at 1. unfold get at 1. simpl. rewrite Hw.
  unfold bind at 1. rewrite getPositionTargetElement_reads.
  reflexivity.
Qed.

Lemma close_returns st a : ∃ st', close a st = (Normal tt, st').
Proof.
  destruct (_windowRef st) as [w|] eqn:Hw.
  - eexists. apply (close_with_window _ _ _ Hw).
  - eexists. apply (close_without_window _ _ Hw).
Qed.

Lemma open_not_opening st context :
  negb (bool_decide (is_Some (_windowRef st))) && truthy (_ngbTooltip st)
    && negb (disableTooltip (inputs st)) = false →
  open context st = (Normal tt, st).
Proof.
  intros Hc. unfold open, bind, get. simpl. rewrite Hc. reflexivity.
Qed.

Lemma open_opening st context :
  opens st →
  if String.eqb (container (inputs st)) "body" then
    match document (world st) !! "body" with
    | Some body =>
        open context st =
          (Normal tt,
           positioned [Node_appendChild body (nativeElement (next_window st))] st
             (labelled context st))
    | None =>
        open context st =
          (Throw (TypeError "Cannot read properties of null (reading 'appendChild')"),
           labelled context st)
    end
  else
    open context st = (Normal tt, positioned [] st (labelled context st)).
Proof.
  intros (Hw & Ht & Hd).
  destruct st as [i c id w u z h wd]. simpl in *. subst w.
  unfold labelled, positioned, next_window. simpl.
  destruct (String.eqb (container i) "body") eqn:Hb;
    [destruct (document wd !! "body") as [body|] eqn:Hbody|];
    unfold open; unfold bind at 1; unfold get at 1; simpl;
    rewrite Ht, Hd, Hb; simpl;
    unfold popupService_open, renderer_setAttribute, promise_then,
      transition_subscribe, document_querySelector, appendChild;
    unfold_monad; simpl;
    rewrite !getPositionTargetElement_reads; simpl;
    try (apply String.eqb_eq in Hb; rewrite Hb, Hbody; simpl);
    rewrite ?getPositionTargetElement_reads; reflexivity.
Qed.

(** Membership in an explicit list of calls. *)
Ltac present :=
  repeat first [apply list_elem_of_here | apply list_elem_of_further].
Ltac absent :=
  rewrite ?not_elem_of_cons; repeat split;
  first [discriminate | apply not_elem_of_nil].

(** What [open] leaves behind when it opens, whether or not the body was
    found: the window, the label, and the calls made up to the label. *)
Lemma open_opening_state st context :
  opens st →
  let st' := exec (open context) st in
  _windowRef st' = Some (next_window st)
  ∧ attributes (world st') =
      <[(position_target st, "aria-describedby") := _ngbTooltipWindowId st]>
        (attributes (world st))
  ∧ ∃ later,
      calls (world st') = later ++ calls (world (labelled context st))
      ∧ (∀ c a b, PopupService_open c a b ∉ later)
      ∧ (Positioning_destroy ∉ later)
      ∧ ((open context st).1 = Normal tt →
         NgbAutoClose (autoClose (inputs st)) CbAutoClose
           [nativeElement (next_window st)] ∈ later
         ∧ microtasks (world st') = microtasks (world st) ++ [CbSchedulePositioning]).
Proof.
  intros Ho. pose proof (open_opening st context Ho) as H. unfold exec. simpl.
  destruct (String.eqb (container (inputs st)) "body");
    [destruct (document (world st) !! "body") as [body|]|];
    rewrite H; simpl; (split; [reflexivity|]); (split; [reflexivity|]).
  - eexists (_ :: _ :: _ :: _ :: _ :: [_]). split; [reflexivity|].
    repeat split; try (intros; absent); present.
  - exists []. split; [reflexivity|].
    repeat split; try (intros; absent); discriminate.
  - eexists (_ :: _ :: _ :: _ :: [_]). split; [reflexivity|].
    repeat split; try (intros; absent); present.
Qed.

(** ** One window at a time *)

Lemma windows_since_teardown_neutral c cs :
  neutral c = true → windows_since_teardown (c :: cs) = windows_since_teardown cs.
Proof. destruct c; simpl; congruence. Qed.

Lemma windows_since_teardown_app new cs :
  forallb neutral new = true →
  windows_since_teardown (new ++ cs) = windows_since_teardown cs.
Proof.
  induction new as [|c new IH]; intros Hn; [reflexivity|].
  simpl in Hn. apply andb_prop in Hn as [Hc Hnew].
  rewrite <- app_comm_cons, windows_since_teardown_neutral by exact Hc. auto.
Qed.

(** *** Computations that leave a field alone *)

Section Quiet.

Context {X : Type} (proj : State → X) (ok : Call → bool).

Lemma quiet_ret {A} (a : A) : quiet proj ok (ret a).
Proof. intros st. split; [reflexivity|]. exists []. split; reflexivity. Qed.

Lemma quiet_throw {A} e : quiet proj ok (@throw A e).
Proof. intros st. split; [reflexivity|]. exists []. split; reflexivity. Qed.

Lemma quiet_gets {A} (f : State → A) : quiet proj ok (gets f).
Proof. intros st. split; [reflexivity|]. exists []. split; reflexivity. Qed.

Lemma quiet_get : quiet proj ok get.
Proof. intros st. split; [reflexivity|]. exists []. split; reflexivity. Qed.

Lemma quiet_call c :
  (∀ f st, proj (with_world f st) = proj st) → ok c = true → quiet proj ok (call c).
Proof.
  intros Hp Hc st. split; [apply Hp|]. exists [c]. split; [reflexivity|].
  simpl. rewrite Hc. reflexivity.
Qed.

Lemma quiet_modify f :
  (∀ st, proj (f st) = proj st ∧ calls (world (f st)) = calls (world st)) →
  quiet proj ok (modify f).
Proof.
  intros Hf st. destruct (Hf st) as [Hw Hc]. split; [exact Hw|].
  exists []. split; [exact Hc|reflexivity].
Qed.

Lemma quiet_bind {A B} (m : M A) (k : A → M B) :
  quiet proj ok m → (∀ a, quiet proj ok (k a)) → quiet proj ok (bind m k).
Proof.
  intros Hm Hk st. destruct (Hm st) as (Hw & new & Hc & Hn).
  unfold exec, bind in *. destruct (m st) as [[a|e] st1]; simpl in *.
  - destruct (Hk a st1) as (Hw' & new' & Hc' & Hn'). unfold exec in *.
    split; [congruence|]. exists (new' ++ new).
    rewrite Hc', Hc, app_assoc. split; [reflexivity|].
    rewrite forallb_app, Hn', Hn. reflexivity.
  - split; [exact Hw|]. exists new. split; assumption.
Qed.

End Quiet.

Lemma quiet_single_window {A} (m : M A) st :
  quiet _windowRef neutral m → single_window st → single_window (exec m st).
Proof.
  intros Hq Hs. destruct (Hq st) as (Hw & new & Hc & Hn).
  unfold single_window. rewrite Hw, Hc, windows_since_teardown_app by exact Hn.
  exact Hs.
Qed.

Ltac quiet_step :=
  match goal with
  | |- quiet _ _ (bind _ _) => apply quiet_bind; [|intros ?]
  | |- quiet _ _ (ret _) => apply quiet_ret
  | |- quiet _ _ get => apply quiet_get
  | |- quiet _ _ (gets _) => apply quiet_gets
  | |- quiet _ _ (throw _) => apply quiet_throw
  | |- quiet _ _ (call _) => apply quiet_call; [intros; reflexivity|reflexivity]
  | |- quiet _ _ (modify _) => apply quiet_modify; intros ?; split; reflexivity
  | |- quiet _ _ (match ?x with _ => _ end) => destruct x
  | |- quiet _ _ (let _ := _ in _) => cbv zeta
  end.

Ltac quiet_steps := repeat quiet_step.

(** Quietness of a method, by running through its statements. *)
Ltac unfold_method :=
  progress unfold open, close, toggle, isOpen, ngbTooltip_set, ngOnInit,
    ngOnChanges, ngOnDestroy, on_closed, schedule_positioning,
    _getPositionTargetElement,
    renderer_setAttribute, renderer_removeAttribute, document_querySelector,
    appendChild, popupService_open, popupService_close_subscribe,
    transition_subscribe, promise_then, onStable_subscribe, unsubscribe,
    listenToTriggers, optional_call, fresh.

Ltac quiet_method := repeat first [quiet_step | unfold_method].

Lemma quiet_close a : quiet _windowRef neutral (close a).
Proof. quiet_method. Qed.

Lemma quiet_isOpen : quiet _windowRef neutral isOpen.
Proof. quiet_method. Qed.

Lemma open_single_window context st :
  single_window st → single_window (exec (open context) st).
Proof.
  intros Hs.
  destruct (negb (bool_decide (is_Some (_windowRef st))) && truthy (_ngbTooltip st)
            && negb (disableTooltip (inputs st))) eqn:Hc.
  - assert (Ho : opens st).
    { apply andb_prop in Hc as [[Hw Ht]%andb_prop Hd]. repeat split.
      - destruct (_windowRef st); [|reflexivity].
        rewrite bool_decide_eq_true_2 in Hw by eauto. discriminate.
      - exact Ht.
      - destruct (disableTooltip (inputs st)); [discriminate|reflexivity]. }
    destruct (open_opening_state st context Ho) as (Hw & _ & later & Hcalls & Hno & Hnd & _).
    unfold single_window in *. destruct Ho as (Hnone & _ & _).
    rewrite Hw, Hcalls. rewrite Hnone in Hs.
    rewrite windows_since_teardown_app.
    + simpl. rewrite Hs. reflexivity.
    + apply forallb_forall. intros c Hin. apply list_elem_of_In in Hin.
      destruct c; try reflexivity; exfalso.
      * eapply Hno, Hin.
      * apply Hnd, Hin.
  - unfold exec. rewrite open_not_opening by exact Hc. exact Hs.
Qed.

Lemma on_closed_single_window st : single_window (exec on_closed st).
Proof.
  unfold single_window, on_closed, unsubscribe. unfold_monad. simpl.
  destruct (_zoneSubscription st); reflexivity.
Qed.

Lemma run_callback_single_window cb st :
  single_window st → single_window (exec (run_callback cb) st).
Proof.
  intros Hs. destruct cb; simpl.
  - apply quiet_single_window; [quiet_method|exact Hs].
  - apply open_single_window, Hs.
  - apply quiet_single_window; [apply quiet_close|exact Hs].
  - apply quiet_single_window; [apply quiet_close|exact Hs].
  - apply quiet_single_window; [quiet_steps|exact Hs].
  - apply on_closed_single_window.
  - apply quiet_single_window; [quiet_method|exact Hs].
  - apply quiet_single_window; [quiet_steps|exact Hs].
  - apply quiet_single_window; [quiet_steps|exact Hs].
Qed.

Lemma run_all_single_window cbs st :
  single_window st → single_window (run_all cbs st).
Proof.
  revert st. induction cbs as [|cb cbs IH]; intros st Hs; simpl; [exact Hs|].
  apply IH, run_callback_single_window, Hs.
Qed.

Lemma step_single_window ev st :
  single_window st → single_window (step ev st).
Proof.
  intros Hs. destruct ev; simpl.
  - apply open_single_window, Hs.
  - apply quiet_single_window; [apply quiet_close|exact Hs].
  - unfold toggle, exec, bind, get. simpl.
    destruct (_windowRef st) eqn:Hw.
    + apply (quiet_single_window (close None)); [apply quiet_close|exact Hs].
    + apply (open_single_window None), Hs.
  - apply quiet_single_window; [apply quiet_isOpen|exact Hs].
  - apply quiet_single_window; [quiet_method|exact Hs].
  - exact Hs.
  - apply quiet_single_window; [quiet_method|exact Hs].
  - apply quiet_single_window; [quiet_method|exact Hs].
  - apply quiet_single_window; [quiet_method|exact Hs].
  - destruct (given_to_utility cb); [|exact Hs].
    apply run_callback_single_window, Hs.
  - destruct (microtasks (world st)); [exact Hs|].
    apply run_callback_single_window, Hs.
  - apply run_all_single_window, Hs.
  - destruct (closing (world st)); [exact Hs|]. apply on_closed_single_window.
  - destruct (opening (world st)); [exact Hs|].
    apply (run_callback_single_window CbShown), Hs.
Qed.

Lemma run_single_window evs st :
  single_window st → single_window (run evs st).
Proof.
  revert st. induction evs as [|ev evs IH]; intros st Hs; simpl; [exact Hs|].
  apply IH, step_single_window, Hs.
Qed.

(** ** Before [ngOnInit] *)

Lemma quiet_never_registered {A} (m : M A) st :
  quiet _unregisterListenersFn keeps_listeners m →
  never_registered st → never_registered (exec m st).
Proof.
  intros Hq [Hu Hc]. destruct (Hq st) as (Hw & new & Hcalls & Hn).
  split; [congruence|]. rewrite Hcalls, forallb_app, Hn, Hc. reflexivity.
Qed.

Lemma quiet_run_callback cb :
  quiet _unregisterListenersFn keeps_listeners (run_callback cb).
Proof. destruct cb; simpl; quiet_method. Qed.

Lemma ngOnDestroy_runs st :
  ngOnDestroy st
  = optional_call (_unregisterListenersFn st) (exec (close (Some false)) st).
Proof.
  unfold ngOnDestroy, exec, bind.
  destruct (close_returns st (Some false)) as [st' Hc]. rewrite Hc. simpl.
  assert (Hq : quiet _unregisterListenersFn keeps_listeners (close (Some false)))
    by quiet_method.
  destruct (Hq st) as [Hu _]. unfold exec in Hu. rewrite Hc in Hu. simpl in Hu.
  rewrite Hu. reflexivity.
Qed.

Lemma run_all_never_registered cbs st :
  never_registered st → never_registered (run_all cbs st).
Proof.
  revert st. induction cbs as [|cb cbs IH]; intros st Hs; simpl; [exact Hs|].
  apply IH, quiet_never_registered; [apply quiet_run_callback|exact Hs].
Qed.

Lemma step_never_registered ev st :
  ev ≠ Ev_ngOnInit → never_registered st → never_registered (step ev st).
Proof.
  intros Hev Hs. destruct ev; simpl; try congruence;
    try solve [apply quiet_never_registered; [quiet_method|exact Hs]].
  - (* a changed input *) exact Hs.
  - (* ngOnDestroy *)
    unfold exec. rewrite ngOnDestroy_runs. destruct Hs as [Hu Hc]. rewrite Hu.
    simpl. apply (quiet_never_registered (close (Some false)));
      [quiet_method|split; assumption].
  - (* a callback run by a utility *)
    destruct (given_to_utility cb); [|exact Hs].
    apply quiet_never_registered; [apply quiet_run_callback|exact Hs].
  - (* a promise job *)
    destruct (microtasks (world st)); [exact Hs|].
    apply quiet_never_registered; [apply quiet_run_callback|exact Hs].
  - (* onStable *) apply run_all_never_registered, Hs.
  - (* a close completes *)
    destruct (closing (world st)); [exact Hs|].
    apply (quiet_never_registered (run_callback CbClosed));
      [apply quiet_run_callback|exact Hs].
  - (* the opening transition ends *)
    destruct (opening (world st)); [exact Hs|].
    apply (quiet_never_registered (run_callback CbShown));
      [apply quiet_run_callback|exact Hs].
Qed.

Lemma run_never_registered evs st :
  Ev_ngOnInit ∉ evs → never_registered st → never_registered (run evs st).
Proof.
  revert st. induction evs as [|ev evs IH]; intros st Hev Hs; simpl; [exact Hs|].
  apply not_elem_of_cons in Hev as [Hne Hev].
  apply IH; [exact Hev|]. apply step_never_registered; [congruence|exact Hs].
Qed.

(** ** The open, close and toggle state *)

(** C1: in every state of the directive, [isOpen()] answers [true] exactly
    when [_windowRef] holds a window (and changes nothing), and [toggle()]
    runs [close()] when it holds one and [open()] when it holds none. *)
Theorem toggle_follows_isOpen (st : State) :
  (∃ b, isOpen st = (Normal b, st) ∧ (b = true ↔ is_Some (_windowRef st)))
  ∧ toggle st = (if bool_decide (is_Some (_windowRef st))
                 then close None st else open None st).
Proof.
  split.
  - exists (bool_decide (_windowRef st ≠ None)). split; [reflexivity|].
    rewrite bool_decide_eq_true, is_Some_alt.
    destruct (_windowRef st); split; intros; try congruence; try tauto.
  - unfold toggle, bind, get. simpl.
    destruct (_windowRef st) as [w|]; reflexivity.
Qed.

(** C2: along every run of a directive, at most one window has been asked
    from the popup service since the last teardown, and exactly one when
    [_windowRef] holds a window; [open()] keeps it so, and [open()] on a
    directive that holds a window changes nothing at all. *)
Theorem open_never_makes_second_window
    (config : NgbTooltipConfig) (host : Element) (nextId : nat)
    (doc : gmap string Element) (attrs : gmap (Element * string) string)
    (evs : list Event) (context : option nat) :
  let st := run evs (constructor config host nextId (new_world doc attrs)) in
  single_window st
  ∧ windows_since_teardown (calls (world st)) ≤ 1
  ∧ windows_since_teardown (calls (world (exec (open context) st))) ≤ 1
  ∧ (is_Some (_windowRef st) → open context st = (Normal tt, st)).
Proof.
  intros st.
  assert (Hs : single_window st) by (apply run_single_window; reflexivity).
  assert (Hs' : single_window (exec (open context) st))
    by (apply open_single_window, Hs).
  repeat split.
  - exact Hs.
  - unfold single_window in Hs. rewrite Hs. destruct (_windowRef st); lia.
  - unfold single_window in Hs'. rewrite Hs'.
    destruct (_windowRef (exec (open context) st)); lia.
  - intros Hw. apply open_not_opening.
    rewrite bool_decide_eq_true_2 by exact Hw. reflexivity.
Qed.

Lemma open_never_makes_second_window_witness :
  windows_since_teardown (calls (world sample_open)) ≤ 1
  ∧ open None sample_open = (Normal tt, sample_open).
Proof.
  pose proof (open_never_makes_second_window sample_config (DocNode 0) 0 ∅ ∅
                [Ev_set_ngbTooltip (ContentString "tip"); Ev_open None] None)
    as (_ & Hle & _ & Hsame).
  split; [exact Hle|]. apply Hsame. vm_compute. eauto.
Defined.

(** ** Null checks *)

(** C7: [close()] on a directive without a window returns normally and
    leaves the whole state as it was: no attribute removed, no call made, no
    event emitted. *)
Theorem close_without_window_is_noop (st : State) (animation : option bool) :
  _windowRef st = None → close animation st = (Normal tt, st).
Proof. apply close_without_window. Qed.

Lemma close_without_window_is_noop_witness :
  close None sample_ready = (Normal tt, sample_ready).
Proof. apply close_without_window_is_noop. reflexivity. Defined.

(** C8: [open()] with a falsy content or with [disableTooltip] set returns
    normally and leaves the whole state as it was (no window, no attribute,
    no positioning, no subscription), so that whatever happens afterwards
    happens as if [open()] had not been called. *)
Theorem open_without_content_or_disabled_is_noop
    (st : State) (context : option nat) :
  truthy (_ngbTooltip st) = false ∨ disableTooltip (inputs st) = true →
  open context st = (Normal tt, st)
  ∧ ∀ evs, run evs (exec (open context) st) = run evs st.
Proof.
  intros Hc.
  assert (Ho : open context st = (Normal tt, st)).
  { apply open_not_opening. destruct Hc as [-> | ->].
    - rewrite andb_false_r. reflexivity.
    - rewrite andb_false_r. reflexivity. }
  split; [exact Ho|]. intros evs. unfold exec. rewrite Ho. reflexivity.
Qed.

Lemma open_without_content_or_disabled_is_noop_witness :
  open None sample_new = (Normal tt, sample_new)
  ∧ ∀ evs, run evs (exec (open None) sample_new) = run evs sample_new.
Proof.
  apply open_without_content_or_disabled_is_noop. left. reflexivity.
Defined.

(** C9: assigning a falsy value to [ngbTooltip] on a directive that holds a
    window stores the value and runs [close()] (the label is removed and the
    popup service is asked to close); assigning a truthy value, or any value
    on a directive without a window, stores the value and does nothing else. *)
Theorem ngbTooltip_set_closes_on_falsy (st : State) (value : TooltipContent) :
  (truthy value = false → is_Some (_windowRef st) →
   ngbTooltip_set value st = close None (with_ngbTooltip value st)
   ∧ _ngbTooltip (exec (ngbTooltip_set value) st) = value
   ∧ calls (world (exec (ngbTooltip_set value) st))
     = PopupService_close (animation (inputs st))
       :: Renderer_removeAttribute (position_target st) "aria-describedby"
       :: calls (world st))
  ∧ (truthy value = true ∨ _windowRef st = None →
     ngbTooltip_set value st = (Normal tt, with_ngbTooltip value st)).
Proof.
  split.
  - intros Hv [w Hw].
    assert (He : ngbTooltip_set value st = close None (with_ngbTooltip value st)).
    { unfold ngbTooltip_set, bind, modify, get. simpl.
      rewrite Hv, Hw, bool_decide_eq_true_2 by eauto. reflexivity. }
    split; [exact He|]. unfold exec. rewrite He.
    rewrite (close_with_window _ _ w) by exact Hw. split; reflexivity.
  - intros Hc. unfold ngbTooltip_set, bind, modify, get. simpl.
    destruct Hc as [-> | ->]; [reflexivity|].
    rewrite bool_decide_eq_false_2, andb_false_r; [reflexivity|].
    intros [? ?]. discriminate.
Qed.

Lemma ngbTooltip_set_closes_on_falsy_witness :
  calls (world (exec (ngbTooltip_set ContentNull) sample_open))
  = PopupService_close true
    :: Renderer_removeAttribute (DocNode 0) "aria-describedby"
    :: calls (world sample_open)
  ∧ ngbTooltip_set (ContentString "other") sample_open
    = (Normal tt, with_ngbTooltip (ContentString "other") sample_open).
Proof.
  pose proof (ngbTooltip_set_closes_on_falsy sample_open ContentNull) as [Hf _].
  pose proof (ngbTooltip_set_closes_on_falsy sample_open (ContentString "other"))
    as [_ Ht].
  split.
  - apply Hf; [reflexivity|]. vm_compute. eauto.
  - apply Ht. left. reflexivity.
Defined.

(** ** Destruction *)

(** C10: [ngOnDestroy()] never throws; it runs [close(false)] and then calls
    the function that removes the trigger listeners when [ngOnInit()] stored
    one.  On a directive on which [ngOnInit()] has never run there is none,
    and [ngOnDestroy()] is [close(false)] and nothing more. *)
Theorem ngOnDestroy_before_ngOnInit
    (config : NgbTooltipConfig) (host : Element) (nextId : nat)
    (doc : gmap string Element) (attrs : gmap (Element * string) string)
    (evs : list Event) :
  Ev_ngOnInit ∉ evs →
  let st := run evs (constructor config host nextId (new_world doc attrs)) in
  ngOnDestroy st = (Normal tt, exec (close (Some false)) st)
  ∧ forallb keeps_listeners (calls (world (exec ngOnDestroy st))) = true
  ∧ (∀ st', (ngOnDestroy st').1 = Normal tt)
  ∧ (∀ st' u, _unregisterListenersFn st' = Some u →
       exec ngOnDestroy st'
       = with_world (with_calls (cons (UnregisterListeners u)))
           (exec (close (Some false)) st')).
Proof.
  intros Hev st.
  assert (Hs : never_registered st).
  { apply run_never_registered; [exact Hev|]. split; reflexivity. }
  assert (Hd : ngOnDestroy st = (Normal tt, exec (close (Some false)) st)).
  { rewrite ngOnDestroy_runs. destruct Hs as [-> _]. reflexivity. }
  split; [exact Hd|]. split; [|split].
  - unfold exec at 1. rewrite Hd. simpl.
    apply (quiet_never_registered (close (Some false))); [quiet_method|exact Hs].
  - intros st'. rewrite ngOnDestroy_runs.
    destruct (_unregisterListenersFn st'); reflexivity.
  - intros st' u Hu. unfold exec at 1. rewrite ngOnDestroy_runs, Hu. reflexivity.
Qed.

Lemma ngOnDestroy_before_ngOnInit_witness :
  ngOnDestroy sample_open = (Normal tt, exec (close (Some false)) sample_open).
Proof.
  apply (ngOnDestroy_before_ngOnInit sample_config (DocNode 0) 0 ∅ ∅
           [Ev_set_ngbTooltip (ContentString "tip"); Ev_open None]).
  rewrite !not_elem_of_cons. repeat split; try discriminate. apply not_elem_of_nil.
Defined.

(** Calling the stored function without the null check would throw on a
    directive on which [ngOnInit()] has not run. *)
Lemma plain_call_throws_before_ngOnInit :
  (plain_call (_unregisterListenersFn sample_new) sample_new).1
  = Throw (TypeError "undefined is not a function").
Proof. reflexivity. Qed.

(** ** The window and its label *)

Lemma labelled_calls context st :
  calls (world (labelled context st)) = creating_calls context st ++ calls (world st).
Proof. reflexivity. Qed.

(** What the subscriber of a close does when the popup service reports. *)
Lemma closed_tears_down st n :
  closing (world st) = S n →
  let st' := step Ev_closed st in
  _windowRef st' = None
  ∧ closing (world st') = n
  ∧ ∃ unsubscribed,
      calls (world st')
      = ChangeDetector_markForCheck :: Hidden_emit
        :: unsubscribed ++ Positioning_destroy :: calls (world st)
      ∧ unsubscribed
        = match _zoneSubscription st with
          | Some s => [Subscription_unsubscribe s]
          | None => []
          end.
Proof.
  intros Hn. simpl. rewrite Hn. unfold on_closed, unsubscribe. unfold_monad. simpl.
  destruct (_zoneSubscription st) as [s|]; simpl;
    (split; [reflexivity|]); (split; [reflexivity|]).
  - exists [Subscription_unsubscribe s]. split; reflexivity.
  - exists []. split; reflexivity.
Qed.

(** C3: when [open()] opens, it sets [aria-describedby] on the position
    target to the id it gives the window, whether it then returns or fails
    on a missing body; when [close()] runs on a directive that holds a
    window, it removes [aria-describedby] from the position target. *)
Theorem aria_describedby_follows_window
    (st : State) (context : option nat) (animation : option bool) :
  (opens st →
   let st' := exec (open context) st in
   (∃ later earlier,
      calls (world st')
      = later
        ++ Renderer_setAttribute (position_target st) "aria-describedby"
             (_ngbTooltipWindowId st)
        :: earlier ++ calls (world st)
      ∧ WindowRef_setInput (next_window st) "id"
          (InputString (_ngbTooltipWindowId st)) ∈ earlier)
   ∧ _windowRef st' = Some (next_window st)
   ∧ attributes (world st') !! (position_target st, "aria-describedby")
     = Some (_ngbTooltipWindowId st))
  ∧ (is_Some (_windowRef st) →
     let st' := exec (close animation) st in
     (∃ a, calls (world st')
           = PopupService_close a
             :: Renderer_removeAttribute (position_target st) "aria-describedby"
             :: calls (world st))
     ∧ attributes (world st') !! (position_target st, "aria-describedby") = None).
Proof.
  split.
  - intros Ho st'.
    destruct (open_opening_state st context Ho) as (Hw & Ha & later & Hc & _).
    fold st' in Hw, Ha, Hc. split; [|split].
    + exists later, (drop 1 (creating_calls context st)).
      rewrite Hc, labelled_calls. split; [reflexivity|]. simpl. present.
    + exact Hw.
    + rewrite Ha. apply lookup_insert_eq.
  - intros [w Hw] st'. unfold st', exec.
    rewrite (close_with_window _ _ w) by exact Hw. simpl. split.
    + eexists. reflexivity.
    + apply lookup_delete_eq.
Qed.

Lemma aria_describedby_follows_window_witness :
  attributes (world (exec (open None) sample_ready))
    !! (DocNode 0, "aria-describedby") = Some "ngb-tooltip-0"
  ∧ attributes (world (exec (close None) sample_open))
      !! (DocNode 0, "aria-describedby") = None.
Proof.
  split.
  - pose proof (aria_describedby_follows_window sample_ready None None) as [Ho _].
    apply Ho. repeat split.
  - pose proof (aria_describedby_follows_window sample_open None None) as [_ Hc].
    apply Hc. vm_compute. eauto.
Defined.

(** C4: when [open()] opens, it asks the popup service for a window and sets
    the window's [animation], [tooltipClass] and [id] inputs.  On a directive
    that holds a window, [close()] and [ngOnDestroy()] ask the popup service
    to close it; once the popup service reports the close, the window
    reference is null, [_positioning.destroy()] has been called and [hidden]
    has been emitted. *)
Theorem window_created_then_destroyed
    (st : State) (context : option nat) (animation_arg : option bool)
    (closer : Event) :
  opens st →
  closer = Ev_close animation_arg ∨ closer = Ev_ngOnDestroy →
  let w := next_window st in
  let st1 := exec (open context) st in
  (_windowRef st1 = Some w
   ∧ ∃ later,
       calls (world st1)
       = later
         ++ [ Renderer_setAttribute (position_target st) "aria-describedby"
                (_ngbTooltipWindowId st);
              WindowRef_setInput w "id" (InputString (_ngbTooltipWindowId st));
              WindowRef_setInput w "tooltipClass" (InputString (tooltipClass (inputs st)));
              WindowRef_setInput w "animation" (InputBool (animation (inputs st)));
              PopupService_open (_ngbTooltip st) context (animation (inputs st)) ]
         ++ calls (world st))
  ∧ ∀ st2, is_Some (_windowRef st2) →
      let st3 := step closer st2 in
      let st4 := step Ev_closed st3 in
      (∃ a unregistered,
         calls (world st3)
         = unregistered
           ++ PopupService_close a
           :: Renderer_removeAttribute (position_target st2) "aria-describedby"
           :: calls (world st2))
      ∧ is_Some (_windowRef st3)
      ∧ _windowRef st4 = None
      ∧ ∃ unsubscribed,
          calls (world st4)
          = ChangeDetector_markForCheck :: Hidden_emit
            :: unsubscribed ++ Positioning_destroy :: calls (world st3).
Proof.
  intros Ho Hcloser w st1. subst w st1. split.
  - destruct (open_opening_state st context Ho) as (Hw & _ & later & Hc & _).
    split; [exact Hw|]. exists later. rewrite Hc. reflexivity.
  - intros st2 [w2 Hw2]. cbv zeta.
    assert (H3 : ∃ a unregistered,
               step closer st2
               = with_world (with_calls (app unregistered))
                   (exec (close a) st2)).
    { destruct Hcloser as [-> | ->]; simpl.
      - exists animation_arg, []. unfold exec.
        rewrite (close_with_window _ _ w2) by exact Hw2. reflexivity.
      - exists (Some false). unfold exec at 1. rewrite ngOnDestroy_runs.
        destruct (_unregisterListenersFn st2) as [u|].
        + exists [UnregisterListeners u]. reflexivity.
        + exists []. unfold exec. rewrite (close_with_window _ _ w2) by exact Hw2.
          reflexivity. }
    destruct H3 as (a & unregistered & ->).
    unfold exec. rewrite (close_with_window _ _ w2) by exact Hw2.
    match goal with |- context [step Ev_closed ?s] => set (st3 := s) end.
    assert (Hn : closing (world st3) = S (closing (world st2))) by reflexivity.
    destruct (closed_tears_down st3 _ Hn) as (Hnone & _ & unsubscribed & Hcalls & _).
    split; [exists (default (animation (inputs st2)) a), unregistered; reflexivity|].
    split; [exists w2; exact Hw2|].
    split; [exact Hnone|]. exists unsubscribed. exact Hcalls.
Qed.

Lemma window_created_then_destroyed_witness :
  _windowRef (exec (open None) sample_ready) = Some {| component_id := 0 |}
  ∧ _windowRef (run [Ev_ngOnDestroy; Ev_closed] sample_open) = None.
Proof.
  pose proof (window_created_then_destroyed sample_ready None None Ev_ngOnDestroy)
    as [[Hw _] Hclose].
  - repeat split.
  - right. reflexivity.
  - split; [exact Hw|]. apply (Hclose sample_open). vm_compute. eauto.
Defined.

(** ** Triggers and auto-close *)

(** C5: [ngOnInit()] calls [listenToTriggers] with the host element, the
    [triggers] input, the directive's [isOpen], [open] and [close], and the
    [openDelay] and [closeDelay] inputs under a unary plus, and keeps the
    function it answers; an [open()] that opens and returns calls
    [ngbAutoClose] with the [autoClose] input, a callback that runs
    [close()], and the element of the new window. *)
Theorem triggers_and_autoclose_delegated (st : State) (context : option nat) :
  (let st' := exec ngOnInit st in
   (ngOnInit st).1 = Normal tt
   ∧ calls (world st')
     = ListenToTriggers (_elementRef st) (triggers (inputs st))
         CbIsOpen CbOpen CbClose
         (ToNumber (openDelay (inputs st))) (ToNumber (closeDelay (inputs st)))
       :: calls (world st)
   ∧ is_Some (_unregisterListenersFn st'))
  ∧ (run_callback CbIsOpen = (isOpen ;; ret tt)
     ∧ run_callback CbOpen = open None
     ∧ run_callback CbClose = close None
     ∧ run_callback CbAutoClose = close None)
  ∧ (opens st → (open context st).1 = Normal tt →
     ∃ later earlier,
       calls (world (exec (open context) st))
       = later
         ++ NgbAutoClose (autoClose (inputs st)) CbAutoClose
              [nativeElement (next_window st)]
         :: earlier ++ calls (world st)).
Proof.
  split; [|split].
  - simpl. repeat split. eauto.
  - repeat split.
  - intros Ho Hn.
    destruct (open_opening_state st context Ho) as (_ & _ & new & Hc & _ & _ & Hauto).
    destruct (Hauto Hn) as [Hin _].
    apply list_elem_of_split in Hin as (later & earlier & ->).
    exists later, (earlier ++ creating_calls context st).
    rewrite Hc, labelled_calls, <- !app_assoc. reflexivity.
Qed.

Lemma triggers_and_autoclose_delegated_witness :
  ∃ later earlier,
    calls (world (exec (open None) sample_ready))
    = later
      ++ NgbAutoClose (AutoCloseBool true) CbAutoClose [WindowNode 0]
      :: earlier ++ calls (world sample_ready).
Proof.
  pose proof (triggers_and_autoclose_delegated sample_ready None) as (_ & _ & Ho).
  apply Ho; repeat split.
Defined.

(** ** Positioning updates *)

Lemma zoneStable_without_subscribers k st :
  onStable (world st) = [] → run (replicate k Ev_zoneStable) st = st.
Proof.
  intros Hs. induction k as [|k IH]; simpl; [reflexivity|].
  rewrite Hs. simpl. exact IH.
Qed.

(** When the job queued by [open] has run before the close completes, the
    subscription it stored is the one the teardown cancels: no subscriber of
    [onStable] is left, and later notifications make no call. *)
Lemma closed_after_positioning_job st n s k :
  closing (world st) = S n →
  _zoneSubscription st = Some s →
  (∀ p, p ∈ onStable (world st) → p.1 = s) →
  let st' := step Ev_closed st in
  onStable (world st') = []
  ∧ Subscription_unsubscribe s ∈ calls (world st')
  ∧ run (replicate k Ev_zoneStable) st' = st'.
Proof.
  intros Hn Hz Hsubs st'.
  assert (Hfilter : filter (λ p : nat * Callback, p.1 ≠ s) (onStable (world st)) = []).
  { induction (onStable (world st)) as [|p l IH]; [reflexivity|].
    rewrite filter_cons_False.
    - apply IH. intros q Hq. apply Hsubs. apply list_elem_of_further, Hq.
    - intros Hne. apply Hne, Hsubs. apply list_elem_of_here. }
  assert (Hempty : onStable (world st') = []).
  { unfold st'. simpl. rewrite Hn. unfold on_closed, unsubscribe. unfold_monad.
    simpl. rewrite Hz. simpl. exact Hfilter. }
  split; [exact Hempty|]. split.
  - unfold st'. simpl. rewrite Hn. unfold on_closed, unsubscribe. unfold_monad.
    simpl. rewrite Hz. simpl. present.
  - apply zoneStable_without_subscribers, Hempty.
Qed.

(** With one subscriber of [onStable] left, each notification calls
    [_positioning.update()] once more. *)
Lemma zoneStable_with_subscriber k st s :
  onStable (world st) = [(s, CbZoneStable)] →
  calls (world (run (replicate k Ev_zoneStable) st))
  = replicate k Positioning_update ++ calls (world st).
Proof.
  revert st. induction k as [|k IH]; intros st Hs; [reflexivity|].
  simpl. rewrite Hs. simpl. unfold exec, call, modify. simpl.
  rewrite IH by exact Hs. simpl.
  clear. induction k as [|k IHk]; simpl; [reflexivity|]. rewrite IHk. reflexivity.
Qed.

(** C6: [open()] queues a job that updates the positioning and subscribes
    the update to [onStable].  A close that completes before that job has
    run finds no subscription to cancel, and the job subscribes afterwards:
    here [open()] is followed by [ngOnDestroy()] whose close completes at
    once, then the job runs, then the zone becomes stable.  The teardown
    ([Positioning_destroy], [Hidden_emit]) is followed by two calls of
    [_positioning.update()], the second from a notification, the subscriber
    is still live, and every further notification makes one more call. *)
Theorem close_before_positioning_job_leaves_subscription :
  let st :=
    run [Ev_set_ngbTooltip (ContentString "tip"); Ev_open None;
         Ev_ngOnDestroy; Ev_closed; Ev_microtask; Ev_zoneStable] sample_new in
  _windowRef st = None
  ∧ closing (world st) = 0
  ∧ microtasks (world st) = []
  ∧ trace st
    = [ PopupService_open (ContentString "tip") None true;
        WindowRef_setInput {| component_id := 0 |} "animation" (InputBool true);
        WindowRef_setInput {| component_id := 0 |} "tooltipClass" (InputString "");
        WindowRef_setInput {| component_id := 0 |} "id" (InputString "ngb-tooltip-0");
        Renderer_setAttribute (DocNode 0) "aria-describedby" "ngb-tooltip-0";
        WindowRef_detectChanges {| component_id := 0 |};
        WindowRef_markForCheck {| component_id := 0 |};
        Positioning_createPopper
          {| hostElement := DocNode 0; targetElement := WindowNode 0;
             popper_placement := "auto"; appendToBody := false;
             baseClass := "bs-tooltip";
             updatePopperOptions := CbUpdatePopperOptions |};
        NgbAutoClose (AutoCloseBool true) CbAutoClose [WindowNode 0];
        Transition_subscribe 0 CbShown;
        (* ngOnDestroy *)
        Renderer_removeAttribute (DocNode 0) "aria-describedby";
        PopupService_close false;
        (* the close completes *)
        Positioning_destroy;
        Hidden_emit;
        ChangeDetector_markForCheck;
        (* the job queued by open *)
        Positioning_update;
        OnStable_subscribe 1 CbZoneStable;
        (* the zone becomes stable *)
        Positioning_update ]
  ∧ onStable (world st) = [(1, CbZoneStable)]
  ∧ ∀ k, calls (world (run (replicate k Ev_zoneStable) st))
         = replicate k Positioning_update ++ calls (world st).
Proof.
  intros st. repeat split.
  intros k. apply (zoneStable_with_subscriber k st 1). reflexivity.
Qed.

(** * Further properties of the directive *)

(** ** Framing *)

Section Frames.

Context (R : relation State) `{!PreOrder R}.

Lemma frames_ret {A} (a : A) : frames R (ret a).
Proof. intros st. reflexivity. Qed.

Lemma frames_throw {A} e : frames R (@throw A e).
Proof. intros st. reflexivity. Qed.

Lemma frames_get : frames R get.
Proof. intros st. reflexivity. Qed.

Lemma frames_gets {A} (f : State → A) : frames R (gets f).
Proof. intros st. reflexivity. Qed.

Lemma frames_modify f : (∀ st, R st (f st)) → frames R (modify f).
Proof. intros Hf st. apply Hf. Qed.

Lemma frames_bind {A B} (m : M A) (k : A → M B) :
  frames R m → (∀ a, frames R (k a)) → frames R (bind m k).
Proof.
  intros Hm Hk st. specialize (Hm st). unfold exec, bind in *.
  destruct (m st) as [[a|e] st1]; simpl in *; [|exact Hm].
  transitivity st1; [exact Hm|]. apply (Hk a st1).
Qed.

Lemma frames_run_all cbs :
  (∀ cb, frames R (run_callback cb)) → ∀ st, R st (run_all cbs st).
Proof.
  intros Hcb. induction cbs as [|cb cbs IH]; intros st; simpl; [reflexivity|].
  transitivity (exec (run_callback cb) st); [apply Hcb|apply IH].
Qed.

Lemma run_frames (allowed : Event → Prop) :
  (∀ ev st, allowed ev → R st (step ev st)) →
  ∀ evs st, Forall allowed evs → R st (run evs st).
Proof.
  intros Hstep. induction evs as [|ev evs IH]; intros st Hall; simpl; [reflexivity|].
  apply Forall_cons in Hall as [Hev Hall].
  transitivity (step ev st); [apply Hstep, Hev|apply IH, Hall].
Qed.

(** A relation framed by the methods, by the callbacks and by the
    bookkeeping of the scheduler is framed by every step. *)
Lemma step_frames (allowed : Event → Prop) :
  (∀ context, frames R (open context)) →
  (∀ animation, frames R (close animation)) →
  (∀ value, allowed (Ev_set_ngbTooltip value) → frames R (ngbTooltip_set value)) →
  (∀ i st, allowed (Ev_set_inputs i) → R st (with_inputs i st)) →
  (allowed Ev_ngOnInit → frames R ngOnInit) →
  (∀ change, frames R (ngOnChanges change)) →
  frames R ngOnDestroy →
  (∀ cb, frames R (run_callback cb)) →
  (∀ f st, R st (with_world (with_microtasks f) st)) →
  (∀ f st, R st (with_world (with_closing f) st)) →
  (∀ f st, R st (with_world (with_opening f) st)) →
  ∀ ev st, allowed ev → R st (step ev st).
Proof.
  intros Hopen Hclose Hset Hinputs Hinit Hchanges Hdestroy Hcb Hmicro Hclosing
    Hopening ev st Hev.
  destruct ev; simpl.
  - apply Hopen.
  - apply Hclose.
  - unfold toggle, exec, bind, get. simpl.
    destruct (_windowRef st); [apply (Hclose None)|apply (Hopen None)].
  - reflexivity.
  - apply Hset, Hev.
  - apply Hinputs, Hev.
  - apply Hinit, Hev.
  - apply Hchanges.
  - apply Hdestroy.
  - destruct (given_to_utility cb); [apply Hcb|reflexivity].
  - destruct (microtasks (world st)) as [|cb rest]; [reflexivity|].
    etransitivity; [apply (Hmicro (λ _, rest))|apply Hcb].
  - apply frames_run_all, Hcb.
  - destruct (closing (world st)) as [|n]; [reflexivity|].
    etransitivity; [apply (Hclosing (λ _, n))|apply (Hcb CbClosed)].
  - destruct (opening (world st)) as [|n]; [reflexivity|].
    etransitivity; [apply (Hopening (λ _, n))|apply (Hcb CbShown)].
Qed.

End Frames.

#[global] Instance preserves_preorder (I : State → Prop) : PreOrder (preserves I).
Proof. split; unfold preserves; [intros st; tauto|intros a b c; tauto]. Qed.

#[global] Instance same_identity_preorder : PreOrder same_identity.
Proof.
  split; unfold same_identity.
  - intros st. split; reflexivity.
  - intros a b c [? ?] [? ?]. split; congruence.
Qed.

#[global] Instance same_unregister_preorder : PreOrder same_unregister.
Proof. split; unfold same_unregister; [intros st|intros a b c]; congruence. Qed.

#[global] Instance same_subscribers_preorder : PreOrder same_subscribers.
Proof. split; unfold same_subscribers; [intros st|intros a b c]; congruence. Qed.

#[global] Instance same_other_attributes_preorder : PreOrder same_other_attributes.
Proof.
  split; unfold same_other_attributes.
  - intros st el name _. reflexivity.
  - intros a b c Hab Hbc el name Hne. rewrite Hbc, Hab by exact Hne. reflexivity.
Qed.

#[global] Instance same_accounts_preorder : PreOrder same_accounts.
Proof.
  split; unfold same_accounts.
  - intros st. repeat split. exists []. split; reflexivity.
  - intros a b c (? & ? & ? & ? & n1 & Hc1 & Hn1) (? & ? & ? & ? & n2 & Hc2 & Hn2).
    repeat split; try congruence. exists (n2 ++ n1).
    rewrite Hc2, Hc1, app_assoc, forallb_app, Hn2, Hn1. split; reflexivity.
Qed.

(** Runs through the statements of a method; [leaf] settles each update of
    the state. *)
Ltac frames_step leaf :=
  match goal with
  | |- frames _ (bind _ _) => apply frames_bind; [typeclasses eauto| |intros ?]
  | |- frames _ (ret _) => apply frames_ret; typeclasses eauto
  | |- frames _ get => apply frames_get; typeclasses eauto
  | |- frames _ (gets _) => apply frames_gets; typeclasses eauto
  | |- frames _ (throw _) => apply frames_throw; typeclasses eauto
  | |- frames _ (call _) => unfold call
  | |- frames _ (modify _) => apply frames_modify; intros ?; leaf
  | |- frames _ (match ?x with _ => _ end) => destruct x
  | |- frames _ (let _ := _ in _) => cbv zeta
  end.

Ltac frames_method leaf := repeat first [frames_step leaf | unfold_method].

(** ** What a directive is *)

Ltac identity_leaf := split; reflexivity.

Lemma step_same_identity ev st : same_identity st (step ev st).
Proof.
  apply (step_frames same_identity (λ _, True)); try exact I; intros;
    try (destruct cb; simpl); frames_method identity_leaf; identity_leaf.
Qed.

Lemma run_same_identity evs st : same_identity st (run evs st).
Proof.
  apply (run_frames same_identity (λ _, True)).
  - intros ev s _. apply step_same_identity.
  - apply Forall_forall. intros ev _. exact I.
Qed.

(** X1: whatever is called on a directive and whatever its collaborators do,
    its window id stays the one the constructor built from the counter and
    its host stays the element it was constructed on; directives built from
    different counter values have different window ids. *)
Theorem window_id_is_fixed_and_unique
    (config config' : NgbTooltipConfig) (host host' : Element)
    (nextId nextId' : nat) (w w' : World) (evs evs' : list Event) :
  nextId ≠ nextId' →
  let st := run evs (constructor config host nextId w) in
  let st' := run evs' (constructor config' host' nextId' w') in
  _ngbTooltipWindowId st = "ngb-tooltip-" +:+ pretty nextId
  ∧ _elementRef st = host
  ∧ _ngbTooltipWindowId st ≠ _ngbTooltipWindowId st'.
Proof.
  intros Hne st st'.
  destruct (run_same_identity evs (constructor config host nextId w)) as [Hid Hhost].
  destruct (run_same_identity evs' (constructor config' host' nextId' w')) as [Hid' _].
  fold st in Hid, Hhost. fold st' in Hid'.
  split; [exact Hid|]. split; [exact Hhost|].
  rewrite Hid, Hid'. simpl. intros Heq. apply Hne.
  apply (inj pretty), (inj (String.app "ngb-tooltip-")), Heq.
Qed.

Lemma window_id_is_fixed_and_unique_witness :
  _ngbTooltipWindowId sample_open = "ngb-tooltip-0"
  ∧ _ngbTooltipWindowId sample_open
    ≠ _ngbTooltipWindowId (constructor sample_config (DocNode 5) 1 (new_world ∅ ∅)).
Proof.
  pose proof (window_id_is_fixed_and_unique sample_config sample_config
                (DocNode 0) (DocNode 5) 0 1 (new_world ∅ ∅) (new_world ∅ ∅)
                [Ev_set_ngbTooltip (ContentString "tip"); Ev_open None] [])
    as H.
  destruct H as (Hid & _ & Hne); [lia|]. split; [exact Hid|exact Hne].
Defined.

(** ** The stored unregister function *)

Ltac unregister_leaf := unfold same_unregister; reflexivity.

Lemma step_same_unregister ev st :
  not_ngOnInit ev → same_unregister st (step ev st).
Proof.
  apply (step_frames same_unregister not_ngOnInit);
    try (intros Habs; exfalso; apply Habs; reflexivity); intros;
    try (destruct cb; simpl); frames_method unregister_leaf; unregister_leaf.
Qed.

(** X2: the function that [ngOnDestroy()] calls is the one the last
    [ngOnInit()] got from [listenToTriggers], whatever was called and
    whatever happened in between; it is called after [close(false)]. *)
Theorem ngOnDestroy_calls_what_ngOnInit_stored (st : State) (evs : list Event) :
  Forall not_ngOnInit evs →
  let registered := exec ngOnInit st in
  let later := run evs registered in
  (ngOnInit st).1 = Normal tt
  ∧ _unregisterListenersFn registered = Some (supply (world st))
  ∧ _unregisterListenersFn later = Some (supply (world st))
  ∧ calls (world (exec ngOnDestroy later))
    = UnregisterListeners (supply (world st))
      :: calls (world (exec (close (Some false)) later)).
Proof.
  intros Hevs registered later.
  assert (Hkept : same_unregister registered later)
    by (apply (run_frames same_unregister not_ngOnInit);
        [intros ev s; apply step_same_unregister|exact Hevs]).
  unfold same_unregister in Hkept.
  assert (Hreg : _unregisterListenersFn registered = Some (supply (world st)))
    by reflexivity.
  split; [reflexivity|]. split; [exact Hreg|]. split; [congruence|].
  unfold exec at 1. rewrite ngOnDestroy_runs, Hkept, Hreg. reflexivity.
Qed.

Lemma ngOnDestroy_calls_what_ngOnInit_stored_witness :
  calls (world (exec ngOnDestroy
                  (run [Ev_set_ngbTooltip (ContentString "tip"); Ev_toggle]
                     (exec ngOnInit sample_new))))
  = UnregisterListeners 0
    :: calls (world (exec (close (Some false))
                       (run [Ev_set_ngbTooltip (ContentString "tip"); Ev_toggle]
                          (exec ngOnInit sample_new)))).
Proof.
  apply (ngOnDestroy_calls_what_ngOnInit_stored sample_new
           [Ev_set_ngbTooltip (ContentString "tip"); Ev_toggle]).
  repeat constructor; discriminate.
Defined.

(** ** Attributes *)





(** ** Without a content *)

Ltac content_leaf :=
  unfold preserves, without_content; simpl;
  intros (? & ? & ?); repeat split; first [assumption | reflexivity].

Lemma open_without_content context :
  frames (preserves without_content) (open context).
Proof.
  intros st Hi. unfold exec. rewrite open_not_opening; [exact Hi|].
  destruct Hi as (-> & _). rewrite andb_false_r. reflexivity.
Qed.

Lemma step_without_content ev st :
  binds_no_content ev → preserves without_content st (step ev st).
Proof.
  apply (step_frames (preserves without_content) binds_no_content);
    try apply open_without_content; simpl; intros;
    try (destruct cb; simpl; try apply open_without_content);
    frames_method content_leaf; content_leaf.
Qed.

(** X4: as long as no truthy content has been bound to [ngbTooltip], nothing
    opens the tooltip: whatever methods are called, whatever the triggers
    and the other collaborators do, and whatever the other inputs are set
    to, the directive holds no window, [isOpen()] answers [false], and the
    popup service is never asked for a window. *)
Theorem nothing_opens_without_content
    (config : NgbTooltipConfig) (host : Element) (nextId : nat)
    (doc : gmap string Element) (attrs : gmap (Element * string) string)
    (evs : list Event) :
  Forall binds_no_content evs →
  let st := run evs (constructor config host nextId (new_world doc attrs)) in
  _windowRef st = None
  ∧ isOpen st = (Normal false, st)
  ∧ ∀ content context animation,
      PopupService_open content context animation ∉ calls (world st).
Proof.
  intros Hevs st.
  assert (Hi : without_content st).
  { apply (run_frames (preserves without_content) binds_no_content
             step_without_content evs _ Hevs).
    repeat split. }
  destruct Hi as (_ & Hw & Hc). split; [exact Hw|]. split.
  - unfold isOpen, bind, get, ret. rewrite Hw. reflexivity.
  - intros content context animation Hin.
    rewrite forallb_forall in Hc. apply list_elem_of_In in Hin.
    specialize (Hc _ Hin). discriminate.
Qed.

Lemma nothing_opens_without_content_witness :
  _windowRef
    (run [Ev_ngOnInit; Ev_open None; Ev_toggle; Ev_callback CbOpen;
          Ev_set_ngbTooltip (ContentString ""); Ev_open (Some 1)] sample_new)
  = None.
Proof.
  apply (nothing_opens_without_content sample_config (DocNode 0) 0 ∅ ∅
           [Ev_ngOnInit; Ev_open None; Ev_toggle; Ev_callback CbOpen;
            Ev_set_ngbTooltip (ContentString ""); Ev_open (Some 1)]).
  repeat constructor.
Defined.

(** ** More on opening *)

(** The call of [appendChild] that [open] makes, if any. *)
Lemma open_returning st context :
  opens st → (open context st).1 = Normal tt →
  ∃ appended,
    open context st = (Normal tt, positioned appended st (labelled context st))
    ∧ appended
      = (if String.eqb (container (inputs st)) "body"
         then match document (world st) !! "body" with
              | Some body => [Node_appendChild body (nativeElement (next_window st))]
              | None => []
              end
         else []).
Proof.
  intros Ho Hn. pose proof (open_opening st context Ho) as H.
  destruct (String.eqb (container (inputs st)) "body");
    [destruct (document (world st) !! "body") as [body|]|].
  - eexists. split; [exact H|reflexivity].
  - rewrite H in Hn. discriminate.
  - eexists. split; [exact H|reflexivity].
Qed.

(** [open] leaves the inputs and the document alone, so the position target
    is the same after it. *)
Lemma open_keeps_position_target st context :
  position_target (exec (open context) st) = position_target st.
Proof.
  destruct (negb (bool_decide (is_Some (_windowRef st))) && truthy (_ngbTooltip st)
            && negb (disableTooltip (inputs st))) eqn:Hc.
  - assert (Ho : opens st).
    { apply andb_prop in Hc as [[Hw Ht]%andb_prop Hd]. repeat split.
      - destruct (_windowRef st); [|reflexivity].
        rewrite bool_decide_eq_true_2 in Hw by eauto. discriminate.
      - exact Ht.
      - destruct (disableTooltip (inputs st)); [discriminate|reflexivity]. }
    pose proof (open_opening st context Ho) as H. unfold exec.
    destruct (String.eqb (container (inputs st)) "body");
      [destruct (document (world st) !! "body") as [body|]|];
      rewrite H; reflexivity.
  - unfold exec. rewrite open_not_opening by exact Hc. reflexivity.
Qed.

(** X5: when [positionTarget] is a selector that matches nothing in the
    document, the host element stands in for it: [open()] labels the host
    with [aria-describedby] and creates the popper against the host. *)
Theorem unmatched_selector_falls_back_to_host
    (st : State) (context : option nat) (selector : string) :
  opens st →
  positionTarget (inputs st) = TargetSelector selector →
  document (world st) !! selector = None →
  let st' := exec (open context) st in
  _getPositionTargetElement st = (Normal (_elementRef st), st)
  ∧ attributes (world st') !! (_elementRef st, "aria-describedby")
    = Some (_ngbTooltipWindowId st)
  ∧ ((open context st).1 = Normal tt →
     ∃ later earlier args,
       calls (world st')
       = later ++ Positioning_createPopper args :: earlier ++ calls (world st)
       ∧ hostElement args = _elementRef st
       ∧ targetElement args = nativeElement (next_window st)).
Proof.
  intros Ho Hsel Hdoc st'.
  assert (Ht : position_target st = _elementRef st)
    by (unfold position_target; rewrite Hsel, Hdoc; reflexivity).
  split; [rewrite getPositionTargetElement_reads, Ht; reflexivity|]. split.
  - destruct (open_opening_state st context Ho) as (_ & Ha & _).
    fold st' in Ha. rewrite Ha, Ht. apply lookup_insert_eq.
  - intros Hn. destruct (open_returning st context Ho Hn) as (appended & He & _).
    unfold st', exec. rewrite He. simpl.
    eexists [_; _], (_ :: _ :: appended ++ creating_calls context st), _.
    split; [simpl; rewrite <- !app_assoc; reflexivity|].
    split; [exact Ht|reflexivity].
Qed.

Lemma unmatched_selector_falls_back_to_host_witness :
  attributes (world (exec (open None) sample_unmatched))
    !! (DocNode 0, "aria-describedby")
  = Some "ngb-tooltip-0".
Proof.
  pose proof (unmatched_selector_falls_back_to_host sample_unmatched None "#missing")
    as H.
  destruct H as (_ & Ha & _); [repeat split|reflexivity|reflexivity|exact Ha].
Defined.

(** X6: [ngOnChanges()] never throws.  When the changes hold one of
    [tooltipClass] and the directive holds a window, it assigns the current
    value to the window's [tooltipClass] and does nothing else; in every
    other case it does nothing. *)
Theorem ngOnChanges_updates_held_window (st : State) (change : option string) :
  (ngOnChanges change st).1 = Normal tt
  ∧ exec (ngOnChanges change) st
    = match change, _windowRef st with
      | Some currentValue, Some w =>
          with_world (with_calls (cons (WindowRef_set_tooltipClass w currentValue))) st
      | _, _ => st
      end.
Proof.
  unfold ngOnChanges, exec, isOpen, bind, get, ret. simpl.
  destruct change as [currentValue|]; [|split; reflexivity].
  destruct (_windowRef st) as [w|] eqn:Hw.
  - rewrite bool_decide_eq_true_2 by discriminate. rewrite Hw. split; reflexivity.
  - rewrite bool_decide_eq_false_2 by tauto. split; reflexivity.
Qed.

(** ** Opening and then closing *)

(** X7: [open()] followed by [close()] leaves the position target without an
    [aria-describedby] attribute, whatever it held before [open()]: a value
    that the element had of its own is overwritten by [open()] and not put
    back by [close()].  When the element had none, all attributes are again
    what they were. *)
Theorem open_then_close_removes_label
    (st : State) (context : option nat) (animation : option bool) :
  opens st →
  let st' := exec (close animation) (exec (open context) st) in
  attributes (world st')
  = delete (position_target st, "aria-describedby") (attributes (world st))
  ∧ (attributes (world st) !! (position_target st, "aria-describedby") = None →
     attributes (world st') = attributes (world st)).
Proof.
  intros Ho st'.
  destruct (open_opening_state st context Ho) as (Hw & Ha & _).
  assert (He : attributes (world st')
               = delete (position_target st, "aria-describedby")
                   (attributes (world st))).
  { unfold st', exec at 1. rewrite (close_with_window _ _ _ Hw). simpl.
    rewrite open_keeps_position_target, Ha. apply delete_insert_eq. }
  split; [exact He|]. intros Hnone. rewrite He. apply delete_id, Hnone.
Qed.

Lemma open_then_close_removes_label_witness :
  attributes (world (exec (close None) (exec (open None) sample_ready)))
  = attributes (world sample_ready).
Proof.
  pose proof (open_then_close_removes_label sample_ready None None) as H.
  destruct H as [_ H]; [repeat split|]. apply H. reflexivity.
Defined.



(** ** The container *)

(** X9: with [container] set to ["body"] in a document without a body,
    [open()] throws a [TypeError] at [appendChild], after the window was
    created and the host labelled and before anything else: no change
    detection, no popper, no queued job, no auto-close, no subscription to the
    opening transition.  The directive is left holding the window, so a
    second [open()] does nothing, and a [close()] removes the label and asks
    the popup service to close. *)
Theorem open_fails_on_missing_body
    (st : State) (context retry : option nat) (animation : option bool) :
  opens st →
  container (inputs st) = "body" →
  document (world st) !! "body" = None →
  let st' := exec (open context) st in
  (∃ what, (open context st).1 = Throw (TypeError what))
  ∧ _windowRef st' = Some (next_window st)
  ∧ calls (world st') = creating_calls context st ++ calls (world st)
  ∧ microtasks (world st') = microtasks (world st)
  ∧ opening (world st') = opening (world st)
  ∧ open retry st' = (Normal tt, st')
  ∧ calls (world (exec (close animation) st'))
    = PopupService_close (default (NgbTooltip.animation (inputs st)) animation)
      :: Renderer_removeAttribute (position_target st) "aria-describedby"
      :: calls (world st').
Proof.
  intros Ho Hb Hdoc st'.
  pose proof (open_opening st context Ho) as H.
  rewrite Hb in H. simpl in H. rewrite Hdoc in H.
  assert (He : st' = labelled context st) by (unfold st', exec; rewrite H; reflexivity).
  split; [rewrite H; eauto|]. rewrite He.
  split; [reflexivity|]. split; [reflexivity|]. split; [reflexivity|].
  split; [reflexivity|]. split.
  - apply open_not_opening. reflexivity.
  - unfold exec. rewrite (close_with_window _ _ (next_window st)) by reflexivity.
    reflexivity.
Qed.

Lemma open_fails_on_missing_body_witness :
  ∃ what, (open None (sample_in_body ∅)).1 = Throw (TypeError what).
Proof.
  pose proof (open_fails_on_missing_body (sample_in_body ∅) None None None) as H.
  destruct H as (H & _); [repeat split|reflexivity|reflexivity|exact H].
Defined.

(** X10: the window is moved in the document only when [container] is
    exactly ["body"]: then [open()] appends the window's element to the
    element that the selector ["body"] finds and tells the popper so; with any
    other container [open()] returns normally, appends nothing, and tells the
    popper that the window is not in the body. *)
Theorem container_is_body_or_ignored
    (st : State) (context : option nat) (body : Element) :
  opens st →
  let st' := exec (open context) st in
  (container (inputs st) ≠ "body" →
   (open context st).1 = Normal tt
   ∧ ∃ new, calls (world st') = new ++ calls (world st)
            ∧ (∀ parent child, Node_appendChild parent child ∉ new)
            ∧ ∀ args, Positioning_createPopper args ∈ new → appendToBody args = false)
  ∧ (container (inputs st) = "body" → document (world st) !! "body" = Some body →
     (open context st).1 = Normal tt
     ∧ ∃ new, calls (world st') = new ++ calls (world st)
              ∧ Node_appendChild body (nativeElement (next_window st)) ∈ new
              ∧ ∀ args, Positioning_createPopper args ∈ new → appendToBody args = true).
Proof.
  intros Ho st'. pose proof (open_opening st context Ho) as H. split.
  - intros Hne.
    destruct (String.eqb (container (inputs st)) "body") eqn:Hb;
      [apply String.eqb_eq in Hb; contradiction|].
    split; [rewrite H; reflexivity|]. unfold st', exec. rewrite H.
    eexists (_ :: _ :: _ :: _ :: _ :: creating_calls context st).
    split; [reflexivity|]. split.
    + intros parent child. unfold creating_calls. absent.
    + intros args Hin. unfold creating_calls in Hin.
      repeat (apply elem_of_cons in Hin as [Hin|Hin]; [try discriminate|]).
      * injection Hin as ->. simpl. exact Hb.
      * apply elem_of_nil in Hin. contradiction.
  - intros Hb Hdoc. rewrite Hb in H. simpl in H. rewrite Hdoc in H.
    split; [rewrite H; reflexivity|]. unfold st', exec. rewrite H.
    eexists (_ :: _ :: _ :: _ :: _ :: _ :: creating_calls context st).
    split; [reflexivity|]. split; [present|].
    intros args Hin. unfold creating_calls in Hin.
    repeat (apply elem_of_cons in Hin as [Hin|Hin]; [try discriminate|]).
    + injection Hin as ->. simpl. rewrite Hb. reflexivity.
    + apply elem_of_nil in Hin. contradiction.
Qed.

Lemma container_is_body_or_ignored_witness :
  (open None sample_ready).1 = Normal tt
  ∧ (open None (sample_in_body {["body" := DocNode 9]})).1 = Normal tt.
Proof.
  split.
  - pose proof (container_is_body_or_ignored sample_ready None (DocNode 9)) as H.
    destruct H as [H _]; [repeat split|]. apply H. discriminate.
  - pose proof (container_is_body_or_ignored
                  (sample_in_body {["body" := DocNode 9]}) None (DocNode 9)) as H.
    destruct H as [_ H]; [repeat split|]. apply H; reflexivity.
Defined.

(** ** The subscription to [onStable], from opening to closing *)

Ltac subscribers_leaf := unfold same_subscribers; reflexivity.

Lemma open_same_subscribers context : frames same_subscribers (open context).
Proof. frames_method subscribers_leaf. Qed.

(** With one subscriber of [onStable], notifications only add calls of
    [_positioning.update()]. *)
Lemma zoneStable_run_with_subscriber k st s :
  onStable (world st) = [(s, CbZoneStable)] →
  run (replicate k Ev_zoneStable) st
  = with_world (with_calls (app (replicate k Positioning_update))) st.
Proof.
  revert st. induction k as [|k IH]; intros st Hs.
  - destruct st as [? ? ? ? ? ? ? []]. reflexivity.
  - simpl. rewrite Hs. simpl. unfold exec, call, modify. simpl.
    rewrite IH by exact Hs.
    destruct st as [? ? ? ? ? ? ? []]. unfold with_world, with_calls. simpl.
    do 2 f_equal. clear. induction k as [|k IHk]; simpl; [reflexivity|].
    rewrite IHk. reflexivity.
Qed.

(** The job queued by [open], when it is alone in the queue. *)
Lemma positioning_job_runs st :
  microtasks (world st) = [CbSchedulePositioning] →
  let s := supply (world st) in
  let st' := step Ev_microtask st in
  _windowRef st' = _windowRef st
  ∧ _zoneSubscription st' = Some s
  ∧ onStable (world st') = onStable (world st) ++ [(s, CbZoneStable)]
  ∧ calls (world st')
    = OnStable_subscribe s CbZoneStable :: Positioning_update :: calls (world st).
Proof. intros Hq. simpl. rewrite Hq. repeat split. Qed.

(** X11: on a directive with no queued job and no subscriber of [onStable],
    an [open()] that returns, followed by its queued job, subscribes one
    positioning update to [onStable]; each notification then calls
    [_positioning.update()] once.  A [close()] whose completion is reported
    after that cancels this subscription: no subscriber is left and later
    notifications change nothing. *)
Theorem subscription_lives_from_job_to_close
    (st : State) (context : option nat) (animation : option bool) (k j : nat) :
  opens st →
  (open context st).1 = Normal tt →
  microtasks (world st) = [] →
  onStable (world st) = [] →
  let s := S (supply (world st)) in
  let opened := run (Ev_open context :: Ev_microtask :: replicate k Ev_zoneStable) st in
  let closed := run [Ev_close animation; Ev_closed] opened in
  calls (world opened)
  = replicate k Positioning_update
    ++ OnStable_subscribe s CbZoneStable :: Positioning_update
    :: calls (world (exec (open context) st))
  ∧ onStable (world opened) = [(s, CbZoneStable)]
  ∧ _windowRef closed = None
  ∧ onStable (world closed) = []
  ∧ Subscription_unsubscribe s ∈ calls (world closed)
  ∧ run (replicate j Ev_zoneStable) closed = closed.
Proof.
  intros Ho Hn Hq Hs s opened closed.
  destruct (open_opening_state st context Ho) as (Hw & _ & later & _ & _ & _ & Hjob).
  destruct (Hjob Hn) as [_ Hmicro]. rewrite Hq in Hmicro. simpl in Hmicro.
  pose proof (open_same_subscribers context st) as Hsubs.
  unfold same_subscribers in Hsubs. rewrite Hs in Hsubs.
  assert (Hsupply : supply (world (exec (open context) st)) = s).
  { destruct (open_returning st context Ho Hn) as (appended & He & _).
    unfold exec. rewrite He. reflexivity. }
  set (stA := exec (open context) st) in *.
  destruct (positioning_job_runs stA Hmicro) as (HwB & HzB & HsB & HcB).
  set (stB := step Ev_microtask stA) in *.
  rewrite Hsupply in HzB, HsB, HcB. rewrite Hsubs, app_nil_l in HsB.
  assert (Hopened : opened
                    = with_world (with_calls (app (replicate k Positioning_update))) stB)
    by (apply (zoneStable_run_with_subscriber k stB s), HsB).
  split; [rewrite Hopened; simpl; rewrite HcB; reflexivity|].
  split; [rewrite Hopened; exact HsB|].
  assert (HwO : _windowRef opened = Some (next_window st))
    by (rewrite Hopened; simpl; congruence).
  assert (Hclosing : closed = step Ev_closed (exec (close animation) opened))
    by reflexivity.
  rewrite Hclosing. unfold exec. rewrite (close_with_window _ _ _ HwO).
  match goal with |- context [step Ev_closed ?x] => set (stC := x) end.
  destruct (closed_tears_down stC (closing (world opened)) eq_refl) as (Hnone & _).
  destruct (closed_after_positioning_job stC (closing (world opened)) s j eq_refl)
    as (Hempty & Hunsub & Hquiet).
  - unfold stC. simpl. rewrite Hopened. exact HzB.
  - unfold stC. simpl. rewrite Hopened. simpl. rewrite HsB.
    intros p Hp. apply list_elem_of_singleton in Hp as ->. reflexivity.
  - repeat split; assumption.
Qed.

Lemma subscription_lives_from_job_to_close_witness :
  onStable
    (world (run [Ev_close None; Ev_closed]
              (run (Ev_open None :: Ev_microtask :: replicate 2 Ev_zoneStable)
                 sample_ready)))
  = [].
Proof.
  pose proof (subscription_lives_from_job_to_close sample_ready None None 2 0) as H.
  destruct H as (_ & _ & _ & H & _); [repeat split|reflexivity..|exact H].
Defined.

(** ** The accounts of [shown] and [hidden] *)

Lemma count_calls_app p l1 l2 :
  count_calls p (l1 ++ l2) = count_calls p l1 + count_calls p l2.
Proof. induction l1 as [|c l1 IH]; simpl; [reflexivity|]. rewrite IH. lia. Qed.

Lemma count_calls_uncounted p new :
  (∀ c, p c = true → counted c = true) →
  forallb (λ c, negb (counted c)) new = true →
  count_calls p new = 0.
Proof.
  intros Hp. induction new as [|c new IH]; simpl; [reflexivity|].
  intros [Hc Hnew]%andb_prop. rewrite IH by exact Hnew.
  destruct (p c) eqn:Hpc; [|reflexivity].
  rewrite (Hp c Hpc) in Hc. discriminate.
Qed.

Lemma same_accounts_accounts st st' :
  same_accounts st st' → accounts st → accounts st'.
Proof.
  intros (Hclosing & Hopening & Hq & Hs & new & Hc & Hn) (H1 & H2 & H3 & H4 & H5).
  unfold accounts. rewrite Hclosing, Hopening, Hq, Hs, Hc, !count_calls_app.
  rewrite !(count_calls_uncounted _ new) by
    (first [exact Hn | intros c; unfold counted; destruct c; simpl; congruence]).
  repeat split; assumption.
Qed.

Ltac same_accounts_leaf :=
  unfold same_accounts; simpl; do 4 (split; [reflexivity|]);
  first [exists []; split; reflexivity | eexists [_]; split; reflexivity].

Lemma open_accounts context : frames (preserves accounts) (open context).
Proof.
  intros st (H1 & H2 & H3 & H4 & H5).
  destruct (negb (bool_decide (is_Some (_windowRef st))) && truthy (_ngbTooltip st)
            && negb (disableTooltip (inputs st))) eqn:Hc.
  - assert (Ho : opens st).
    { apply andb_prop in Hc as [[Hw Ht]%andb_prop Hd]. repeat split.
      - destruct (_windowRef st); [|reflexivity].
        rewrite bool_decide_eq_true_2 in Hw by eauto. discriminate.
      - exact Ht.
      - destruct (disableTooltip (inputs st)); [discriminate|reflexivity]. }
    pose proof (open_opening st context Ho) as H. unfold exec.
    destruct (String.eqb (container (inputs st)) "body");
      [destruct (document (world st) !! "body") as [body|]|];
      rewrite H; unfold accounts; simpl;
      (split; [lia|]); (split; [lia|]); (split; [lia|]);
      (split; [|exact H5]);
      first [exact H4 | apply Forall_app; split; [exact H4|repeat constructor]].
  - unfold exec. rewrite open_not_opening by exact Hc. repeat split; assumption.
Qed.

Lemma close_accounts animation : frames (preserves accounts) (close animation).
Proof.
  intros st (H1 & H2 & H3 & H4 & H5). unfold exec.
  destruct (_windowRef st) as [w|] eqn:Hw.
  - rewrite (close_with_window _ _ _ Hw). unfold accounts. simpl.
    repeat split; first [lia | assumption].
  - rewrite close_without_window by exact Hw. repeat split; assumption.
Qed.

Lemma on_closed_accounts st n :
  closing (world st) = S n →
  accounts st →
  accounts (exec on_closed (with_world (with_closing (λ _, n)) st)).
Proof.
  intros Hn (H1 & H2 & H3 & H4 & H5). rewrite Hn in H1.
  unfold on_closed, unsubscribe. unfold_monad. unfold accounts. simpl.
  destruct (_zoneSubscription st) as [s|]; simpl;
    (split; [lia|]); (split; [lia|]); (split; [lia|]); (split; [exact H4|]);
    [|exact H5].
  apply Forall_forall. intros p [_ Hp]%list_elem_of_filter.
  rewrite Forall_forall in H5. apply H5, Hp.
Qed.

Lemma shown_accounts st n :
  opening (world st) = S n →
  accounts st →
  accounts (exec (call Shown_emit) (with_world (with_opening (λ _, n)) st)).
Proof.
  intros Hn (H1 & H2 & H3 & H4 & H5). rewrite Hn in H2.
  unfold_monad. unfold accounts. simpl. repeat split; first [lia | assumption].
Qed.

Lemma positioning_job_accounts st rest :
  microtasks (world st) = CbSchedulePositioning :: rest →
  accounts st →
  accounts (exec schedule_positioning (with_world (with_microtasks (λ _, rest)) st)).
Proof.
  intros Hq (H1 & H2 & H3 & H4 & H5). rewrite Hq in H4.
  apply Forall_cons in H4 as [_ H4].
  unfold schedule_positioning, onStable_subscribe. unfold_monad.
  unfold accounts. simpl.
  (split; [lia|]); (split; [lia|]); (split; [lia|]); (split; [exact H4|]).
  apply Forall_app. split; [exact H5|repeat constructor].
Qed.

Lemma zoneStable_accounts cbs st :
  Forall (λ cb, cb = CbZoneStable) cbs → accounts st → accounts (run_all cbs st).
Proof.
  revert st. induction cbs as [|cb cbs IH]; intros st Hall Hi; [exact Hi|].
  apply Forall_cons in Hall as [-> Hall]. simpl. apply IH; [exact Hall|].
  apply (same_accounts_accounts st); [|exact Hi].
  unfold exec, call, modify. simpl. same_accounts_leaf.
Qed.

Ltac accounts_leaf := unfold preserves, accounts; simpl; intros; assumption.

Ltac accounts_method :=
  repeat first [apply open_accounts | apply close_accounts
               | frames_step accounts_leaf | unfold_method].

Lemma run_callback_accounts cb :
  given_to_utility cb = true → frames (preserves accounts) (run_callback cb).
Proof. destruct cb; simpl; try discriminate; intros _; accounts_method. Qed.

Lemma step_accounts ev st : accounts st → accounts (step ev st).
Proof.
  intros Hi. destruct ev; simpl.
  - apply open_accounts, Hi.
  - apply close_accounts, Hi.
  - assert (H : frames (preserves accounts) toggle) by accounts_method.
    apply H, Hi.
  - exact Hi.
  - assert (H : frames (preserves accounts) (ngbTooltip_set value)) by accounts_method.
    apply H, Hi.
  - exact Hi.
  - assert (H : frames (preserves accounts) ngOnInit) by accounts_method.
    apply H, Hi.
  - assert (H : frames (preserves accounts) (ngOnChanges tooltipClass_change))
      by accounts_method.
    apply H, Hi.
  - assert (H : frames (preserves accounts) ngOnDestroy) by accounts_method.
    apply H, Hi.
  - destruct (given_to_utility cb) eqn:Hcb; [|exact Hi].
    apply (run_callback_accounts cb Hcb), Hi.
  - destruct (microtasks (world st)) as [|cb rest] eqn:Hq; [exact Hi|].
    assert (Hcb : cb = CbSchedulePositioning).
    { destruct Hi as (_ & _ & _ & H4 & _). rewrite Hq in H4.
      apply Forall_cons in H4 as [H4 _]. exact H4. }
    subst cb. apply positioning_job_accounts; assumption.
  - apply zoneStable_accounts; [|exact Hi].
    destruct Hi as (_ & _ & _ & _ & H5). apply Forall_fmap. exact H5.
  - destruct (closing (world st)) as [|n] eqn:Hn; [exact Hi|].
    apply on_closed_accounts; assumption.
  - destruct (opening (world st)) as [|n] eqn:Hn; [exact Hi|].
    apply shown_accounts; assumption.
Qed.

(** X12: along every run of a directive, provided each observable of the
    popup service emits at most once to a subscriber, [hidden] has been
    emitted once for every close asked from the popup service whose
    completion was reported, and [shown] once for every opening transition
    that ended; so [hidden] is never emitted more often than the popup
    service was asked to close, and [shown] never more often than it was
    asked for a window. *)
Theorem shown_and_hidden_are_accounted
    (config : NgbTooltipConfig) (host : Element) (nextId : nat)
    (doc : gmap string Element) (attrs : gmap (Element * string) string)
    (evs : list Event) :
  let st := run evs (constructor config host nextId (new_world doc attrs)) in
  let cs := calls (world st) in
  count_calls is_hidden_emit cs + closing (world st) = count_calls is_close_request cs
  ∧ count_calls is_shown_emit cs + opening (world st)
    = count_calls is_transition_subscribe cs
  ∧ count_calls is_hidden_emit cs ≤ count_calls is_close_request cs
  ∧ count_calls is_shown_emit cs ≤ count_calls is_open_request cs.
Proof.
  intros st cs.
  assert (Hi : accounts st).
  { apply (run_frames (preserves accounts) (λ _, True)).
    - intros ev s _. exact (step_accounts ev s).
    - apply Forall_forall. intros ev _. exact I.
    - repeat split; constructor. }
  destruct Hi as (H1 & H2 & H3 & _). fold cs in H1, H2, H3.
  repeat split; lia.
Qed.

(** ** The content and the inputs *)

#[global] Instance same_bindings_preorder : PreOrder same_bindings.
Proof.
  split; unfold same_bindings.
  - intros st. split; reflexivity.
  - intros a b c [? ?] [? ?]. split; congruence.
Qed.

Ltac bindings_leaf := unfold same_bindings; split; reflexivity.

Lemma step_same_bindings ev st :
  binds_nothing ev → same_bindings st (step ev st).
Proof.
  apply (step_frames same_bindings binds_nothing); simpl; try contradiction;
    intros; try (destruct cb; simpl); frames_method bindings_leaf; bindings_leaf.
Qed.

(** X13: the content and the inputs change only when they are bound: no
    method, callback or scheduled job of the directive writes them.  So
    the getter of [ngbTooltip] answers the last value given to the setter,
    also when that value was falsy and made the setter close the tooltip,
    and whatever was opened, closed or destroyed since. *)
Theorem content_is_what_was_last_bound
    (st : State) (value : TooltipContent) (evs : list Event) :
  Forall binds_nothing evs →
  let bound := exec (ngbTooltip_set value) st in
  let later := run evs bound in
  ngbTooltip_get later = (Normal value, later)
  ∧ inputs later = inputs st.
Proof.
  intros Hevs bound later.
  assert (Hb : _ngbTooltip bound = value ∧ inputs bound = inputs st).
  { unfold bound, exec, ngbTooltip_set, bind, modify, get. simpl.
    destruct (negb (truthy value) && bool_decide (is_Some (_windowRef st))).
    - destruct (_windowRef st) as [w|] eqn:Hw.
      + rewrite (close_with_window _ _ w) by exact Hw. split; reflexivity.
      + rewrite close_without_window by exact Hw. split; reflexivity.
    - split; reflexivity. }
  assert (Hl : same_bindings bound later)
    by (apply (run_frames same_bindings binds_nothing);
        [intros ev s; apply step_same_bindings|exact Hevs]).
  destruct Hb as [Hv Hi], Hl as [Hv' Hi'].
  split; [|congruence]. unfold ngbTooltip_get, gets. rewrite Hv', Hv. reflexivity.
Qed.

Lemma content_is_what_was_last_bound_witness :
  ngbTooltip_get
    (run [Ev_ngOnDestroy; Ev_closed; Ev_microtask]
       (exec (ngbTooltip_set ContentNull) sample_open))
  = (Normal ContentNull,
     run [Ev_ngOnDestroy; Ev_closed; Ev_microtask]
       (exec (ngbTooltip_set ContentNull) sample_open)).
Proof.
  apply (content_is_what_was_last_bound sample_open ContentNull
           [Ev_ngOnDestroy; Ev_closed; Ev_microtask]).
  repeat constructor.
Defined.
